(** * IPRoute: default-gateway reconciliation of the Sanji routes bundle

    A shallow embedding of [src/route.py] (class [IPRoute]) and the
    properties of its default-route switcher, interface/gateway registry
    and cellular-priority policy.

    Python dictionaries with string keys are finite maps [gmap string string]
    (every value the code touches, interface names and gateway addresses,
    is a string).  The object's attributes and the host it talks to are
    gathered in one record, [world], threaded through a state-and-exception
    monad [M].  The modules [ip] and [netifaces] are not part of the
    bundle's source: they are an interface, the class [NetPrim]. *)

From stdpp Require Import base option list strings gmap fin_maps.

Local Open Scope string_scope.

(** ** Dictionaries and exceptions *)

Abbreviation dict := (gmap string string).

(** The exceptions that travel through the code.  [ValueError] and
    [KeyError] are raised by the bundle itself; [PrimitiveError] stands for
    whatever a collaborator ([ip], [netifaces], [voluptuous]) raises. *)
Inductive exn : Type :=
  | ValueError (msg : string)
  | KeyError (key : string)
  | PrimitiveError (msg : string).

(** [str(e)], as used by ["... %s" % e]. *)
Definition exn_str (e : exn) : string :=
  match e with
  | ValueError msg => msg
  | KeyError key => "'" ++ key ++ "'"
  | PrimitiveError msg => msg
  end.

(** ** The observable calls *)

(** Every call that leaves the object is recorded, in order: the network
    primitives, the persistent store and the logger. *)
Inductive event : Type :=
  | EvInterfaces                                   (* ip.addr.interfaces() *)
  | EvIfaddresses (iface : string)                 (* ip.addr.ifaddresses(iface) *)
  | EvRouteDelete (dest : string)                  (* ip.route.delete(dest) *)
  | EvRouteAdd (dest iface : string) (gw : option string) (* ip.route.add(dest, iface[, gw]) *)
  | EvGateways                                     (* netifaces.gateways() *)
  | EvSaveDb                                       (* model.save_db() *)
  | EvBackupDb                                     (* model.backup_db() *)
  | EvLog (msg : string).                          (* _logger.info(msg) *)

(** [netifaces.AF_INET]. *)
Definition AF_INET : Z := 2.

(** ** Network primitives

    The contract of the modules [ip] and [netifaces] over an abstract host
    state [OS].  Queries read the host; the two route mutators return the
    host they leave behind together with their outcome, so a failing call
    may or may not have changed the host. *)
Class NetPrim (OS : Type) : Type := {
  (* ip.addr.interfaces(): the interface names, or an exception *)
  ip_addr_interfaces : OS -> exn + list string;
  (* ip.addr.ifaddresses(iface)["link"], or an exception *)
  ip_addr_ifaddresses : OS -> string -> exn + Z;
  (* ip.route.delete(dest) *)
  ip_route_delete : string -> OS -> (exn + unit) * OS;
  (* ip.route.add(dest, iface) and ip.route.add(dest, iface, gateway) *)
  ip_route_add : string -> string -> option string -> OS -> (exn + unit) * OS;
  (* netifaces.gateways()['default']: address family -> (gateway, interface) *)
  netifaces_gateways : OS -> gmap Z (string * string)
}.

(** ** The object and its surroundings *)

Record world (OS : Type) : Type := World {
  os : OS;                    (* the host, as seen through the primitives *)
  cellular : option string;   (* self.cellular *)
  interfaces : list dict;     (* self.interfaces *)
  db : dict;                  (* self.model.db *)
  db_file : dict;             (* the configuration file written by save_db *)
  db_backup : dict;           (* its backup written by backup_db *)
  trace : list event          (* the calls made so far, oldest first *)
}.

Arguments World {OS} _ _ _ _ _ _ _.
Arguments os {OS} _.
Arguments cellular {OS} _.
Arguments interfaces {OS} _.
Arguments db {OS} _.
Arguments db_file {OS} _.
Arguments db_backup {OS} _.
Arguments trace {OS} _.

Section Setters.
Context {OS : Type}.

Definition set_os (o : OS) (w : world OS) : world OS :=
  World o (cellular w) (interfaces w) (db w) (db_file w) (db_backup w) (trace w).
Definition set_cellular (c : option string) (w : world OS) : world OS :=
  World (os w) c (interfaces w) (db w) (db_file w) (db_backup w) (trace w).
Definition set_interfaces (l : list dict) (w : world OS) : world OS :=
  World (os w) (cellular w) l (db w) (db_file w) (db_backup w) (trace w).
Definition set_db (d : dict) (w : world OS) : world OS :=
  World (os w) (cellular w) (interfaces w) d (db_file w) (db_backup w) (trace w).
Definition set_db_file (d : dict) (w : world OS) : world OS :=
  World (os w) (cellular w) (interfaces w) (db w) d (db_backup w) (trace w).
Definition set_db_backup (d : dict) (w : world OS) : world OS :=
  World (os w) (cellular w) (interfaces w) (db w) (db_file w) d (trace w).
Definition emit (ev : event) (w : world OS) : world OS :=
  World (os w) (cellular w) (interfaces w) (db w) (db_file w) (db_backup w)
        (trace w ++ [ev]).
Definition emits (evs : list event) (w : world OS) : world OS :=
  World (os w) (cellular w) (interfaces w) (db w) (db_file w) (db_backup w)
        (trace w ++ evs).
End Setters.

(** ** State and exceptions *)

Definition M (OS A : Type) : Type := world OS -> (exn + A) * world OS.

Section Monad.
Context {OS : Type}.

Definition ret {A} (a : A) : M OS A := fun w => (inr a, w).

Definition bind {A B} (m : M OS A) (k : A -> M OS B) : M OS B :=
  fun w =>
    match m w with
    | (inr a, w') => k a w'
    | (inl e, w') => (inl e, w')
    end.

(** [raise e] *)
Definition raise {A} (e : exn) : M OS A := fun w => (inl e, w).

(** [try: m  except Exception as e: h e] *)
Definition try_except {A} (m : M OS A) (h : exn -> M OS A) : M OS A :=
  fun w =>
    match m w with
    | (inr a, w') => (inr a, w')
    | (inl e, w') => h e w'
    end.

Definition get : M OS (world OS) := fun w => (inr w, w).
Definition modify (f : world OS -> world OS) : M OS unit :=
  fun w => (inr tt, f w).
End Monad.

Declare Scope py_scope.
Delimit Scope py_scope with py.
Notation "x <- m ;; k" := (bind m (fun x => k))
  (at level 100, m at next level, right associativity) : py_scope.
Notation "m ;;; k" := (bind m (fun _ => k))
  (at level 100, right associativity) : py_scope.
Local Open Scope py_scope.

(** Truth value of a string: the empty string is false. *)
Definition truthy (s : string) : bool :=
  match s with
  | EmptyString => false
  | _ => true
  end.

(** ** The class IPRoute *)

Section IPRoute.
Context {OS : Type} `{NetPrim OS}.

Local Abbreviation M := (M OS).

(** *** Calls to the collaborators *)

Definition call_interfaces : M (list string) :=
  fun w =>
    (ip_addr_interfaces (os w), emit EvInterfaces w).

Definition call_ifaddresses (iface : string) : M Z :=
  fun w =>
    (ip_addr_ifaddresses (os w) iface, emit (EvIfaddresses iface) w).

Definition call_route_delete (dest : string) : M unit :=
  fun w =>
    let '(r, o) := ip_route_delete dest (os w) in
    (r, set_os o (emit (EvRouteDelete dest) w)).

Definition call_route_add (dest iface : string) (gw : option string) : M unit :=
  fun w =>
    let '(r, o) := ip_route_add dest iface gw (os w) in
    (r, set_os o (emit (EvRouteAdd dest iface gw) w)).

Definition call_gateways : M (gmap Z (string * string)) :=
  fun w =>
    (inr (netifaces_gateways (os w)), emit EvGateways w).

Definition log_info (msg : string) : M unit := modify (emit (EvLog msg)).

(** Modelled from the spec: [write] of the Persistent Config Store
    ([ModelInitiator.save_db] of the sanji framework, not in the bundle's
    source): the configuration in memory is written to the file; the call
    does not raise. *)
Definition save_db : M unit :=
  modify (fun w => set_db_file (db w) (emit EvSaveDb w)).

(** Modelled from the spec: [backup] of the Persistent Config Store
    ([ModelInitiator.backup_db]): the file is copied to the backup; the call
    does not raise. *)
Definition backup_db : M unit :=
  modify (fun w => set_db_backup (db_file w) (emit EvBackupDb w)).

(** *** save *)
Definition save : M unit :=
  save_db ;;; backup_db.

(** *** list_interfaces

    The loop over [ifaces]: an interface whose query raises is skipped, one
    whose link is 1 is kept.  When [ip.addr.interfaces()] raises the code
    returns the empty dict, which [update_default] only tests for
    emptiness and membership: it is the empty list here. *)
Fixpoint list_connected (ifaces : list string) (data : list string) : M (list string) :=
  match ifaces with
  | [] => ret data
  | iface :: rest =>
      r <- try_except (link <- call_ifaddresses iface ;; ret (Some link))
                      (fun _ => ret None) ;;
      match r with
      | None => list_connected rest data
      | Some link =>
          if decide (1 = link)%Z
          then list_connected rest (data ++ [iface])
          else list_connected rest data
      end
  end.

Definition list_interfaces : M (list string) :=
  r <- try_except (ifaces <- call_interfaces ;; ret (Some ifaces))
                  (fun _ => ret None) ;;
  match r with
  | None => ret []
  | Some ifaces => list_connected ifaces []
  end.

(** *** list_default *)
Definition list_default : M dict :=
  gws <- call_gateways ;;
  if decide (gws <> empty) then
    match gws !! AF_INET with
    | None => raise (KeyError "2")
    | Some gw =>
        let default : dict := empty in
        let default := <["gateway" := fst gw]> default in
        let default := <["interface" := snd gw]> default in
        ret default
    end
  else ret empty.

(** *** update_default *)

(** ["interface" in default and default["interface"]] *)
Definition has_interface (default : dict) : bool :=
  match default !! "interface" with
  | Some name => truthy name
  | None => false
  end.

(** [default[key]] *)
Definition getitem (d : dict) (key : string) : M string :=
  match d !! key with
  | Some v => ret v
  | None => raise (KeyError key)
  end.

(** [r], the outcome of a computation that does not touch the object. *)
Definition lift {A} (r : exn + A) : M A := fun w => (r, w).

(** "retrieve the default gateway": the loop [for iface in self.interfaces:
    if iface["interface"] == default["interface"]: default = iface; break],
    giving the value of [default] after it. *)
Fixpoint retrieve_gateway (ifaces : list dict) (default : dict) : exn + dict :=
  match ifaces with
  | [] => inr default
  | iface :: rest =>
      match iface !! "interface", default !! "interface" with
      | None, _ => inl (KeyError "interface")
      | Some _, None => inl (KeyError "interface")
      | Some a, Some b =>
          if decide (a = b) then inr iface else retrieve_gateway rest default
      end
  end.

Definition cellular_truthy (c : option string) : bool :=
  match c with
  | Some name => truthy name
  | None => false
  end.

Definition update_default (default : dict) : M unit :=
  (if has_interface default then
     ifaces <- list_interfaces ;;
     name <- getitem default "interface" ;;
     w <- get ;;
     (if decide (ifaces = [] \/ name ∉ ifaces) then
        raise (ValueError "Interface should be UP.")
      else if cellular_truthy (cellular w) then
        raise (ValueError
                 "Cellular is connected, the default gatewaycannot be changed.")
      else ret tt) ;;;
     default <- lift (retrieve_gateway (interfaces w) default) ;;
     try_except
       (call_route_delete "default" ;;;
        match default !! "gateway" with
        | Some gateway =>
            iface <- getitem default "interface" ;;
            call_route_add "default" iface (Some gateway)
        | None =>
            iface <- getitem default "interface" ;;
            call_route_add "default" iface None
        end)
       (fun e => raise e) ;;;
     iface <- getitem default "interface" ;;
     modify (fun w => set_db (<["default" := iface]> (db w)) w)
   else
     try_except (call_route_delete "default") (fun e => raise e) ;;;
     w <- get ;;
     match db w !! "default" with
     | Some _ => modify (fun w => set_db (delete "default" (db w)) w)
     | None => ret tt
     end) ;;;
  save.

(** *** cellular_connected *)
Definition cellular_connected (name : string) (up : bool) : M unit :=
  let default : dict := empty in
  if up then
    modify (set_cellular (Some name)) ;;;
    w <- get ;;
    let default :=
      match cellular w with
      | Some c => <["interface" := c]> default
      | None => default
      end in
    update_default default
  else
    modify (set_cellular None) ;;;
    w <- get ;;
    persisted <- getitem (db w) "default" ;;
    if decide (name = persisted) then update_default default else ret tt.

(** *** update_interface_router *)

(** The body run for the entry that matches: [if "gateway" in interface:
    iface["gateway"] = interface["gateway"]]. *)
Definition set_gateway (iface interface : dict) : dict :=
  match interface !! "gateway" with
  | Some gateway => <["gateway" := gateway]> iface
  | None => iface
  end.

(** The [for] loop over [self.interfaces]: [Some (l, iface)] when the loop
    breaks at [iface] (updated in place, [l] is the list afterwards), [None]
    when it runs to its end, an exception when a subscript fails. *)
Fixpoint update_router (ifaces : list dict) (interface : dict)
  : exn + option (list dict * dict) :=
  match ifaces with
  | [] => inr None
  | iface :: rest =>
      match iface !! "interface", interface !! "name" with
      | None, _ => inl (KeyError "interface")
      | Some _, None => inl (KeyError "name")
      | Some a, Some b =>
          if decide (a = b) then
            let iface := set_gateway iface interface in
            inr (Some (iface :: rest, iface))
          else
            match update_router rest interface with
            | inr (Some (l, found)) => inr (Some (iface :: l, found))
            | r => r
            end
      end
  end.

(** The [else] clause of the loop: a fresh entry is appended. *)
Definition new_router (interface : dict) : exn + dict :=
  let iface : dict := empty in
  match interface !! "name" with
  | None => inl (KeyError "name")
  | Some name =>
      let iface := <["interface" := name]> iface in
      inr (set_gateway iface interface)
  end.

(** "update the router information": the first half of
    [update_interface_router], which leaves [iface] bound to the entry of
    the registry that now describes the interface. *)
Definition update_router_information (interface : dict) : M dict :=
  w <- get ;;
  found <- lift (update_router (interfaces w) interface) ;;
  match found with
  | Some (l, iface) =>
      modify (set_interfaces l) ;;; ret iface
  | None =>
      iface <- lift (new_router interface) ;;
      modify (set_interfaces (interfaces w ++ [iface])) ;;; ret iface
  end.

Definition update_interface_router (interface : dict) : M unit :=
  iface <- update_router_information interface ;;
  name <- getitem iface "interface" ;;
  w <- get ;;
  persisted <- getitem (db w) "default" ;;
  if decide (name = persisted) then
    try_except (update_default iface) (fun _ => ret tt)
  else ret tt.

(** *** The request handlers *)

(** What [response(code=..., data=...)] carries. *)
Inductive payload : Type :=
  | DataDict (d : dict)
  | DataList (l : list dict)
  | DataMessage (message : string).

Record response : Type := Response { code : Z; data : payload }.

(** [put_default_schema]: a dictionary whose optional ["interface"] is a
    string and whose other keys are free.  With string values every
    dictionary passes; a request without a dictionary ([None]) is
    rejected. *)
Definition put_default_schema (message_data : option dict) : exn + dict :=
  match message_data with
  | Some d => inr d
  | None => inl (PrimitiveError "expected a dictionary")
  end.

Definition _put_default (message_data : option dict) : M response :=
  match put_default_schema message_data with
  | inl e =>
      ret (Response 400 (DataMessage ("Invalid input: " ++ exn_str e ++ ".")))
  | inr request =>
      default <- list_default ;;
      try_except
        (update_default request ;;;
         w <- get ;;
         ret (Response 200 (DataDict (db w))))
        (fun e =>
           try_except
             (if decide (default <> empty) then update_default default
              else ret tt)
             (fun _ => log_info "Failed to recover the default gateway.") ;;;
           log_info ("Update default gateway failed: " ++ exn_str e) ;;;
           ret (Response 404
                  (DataMessage ("Update default gateway failed: " ++ exn_str e))))
  end.

(** The body of a [put /network/routes/db] request: a list of interfaces,
    one interface, or anything else. *)
Inductive router_data : Type :=
  | RouterList (l : list dict)
  | RouterDict (d : dict)
  | RouterOther.

Fixpoint update_each (l : list dict) : M unit :=
  match l with
  | [] => ret tt
  | iface :: rest => update_interface_router iface ;;; update_each rest
  end.

Definition set_router_db (message_data : router_data) : M response :=
  match message_data with
  | RouterList l =>
      update_each l ;;;
      w <- get ;;
      ret (Response 200 (DataList (interfaces w)))
  | RouterDict d =>
      update_interface_router d ;;;
      ret (Response 200 (DataDict d))
  | RouterOther =>
      ret (Response 400 (DataMessage "Wrong type of router database."))
  end.

Definition _event_router_db (message_data : dict) : M unit :=
  update_interface_router message_data.

(** [_get_default]: the route the host reports when it goes through the
    persisted default interface, the configuration otherwise. *)
Definition _get_default : M response :=
  default <- list_default ;;
  w <- get ;;
  if decide (db w <> empty) then
    match db w !! "default" with
    | Some current =>
        if decide (default <> empty) then
          iface <- getitem default "interface" ;;
          if decide (current = iface)
          then ret (Response 200 (DataDict default))
          else ret (Response 200 (DataDict (db w)))
        else ret (Response 200 (DataDict (db w)))
    | None => ret (Response 200 (DataDict (db w)))
    end
  else ret (Response 200 (DataDict (db w))).

Definition _set_router_db (message_data : router_data) : M response :=
  set_router_db message_data.

Definition _get_router_db : M response :=
  w <- get ;;
  ret (Response 200 (DataList (interfaces w))).

(** *** init and load

    [ModelInitiator] belongs to the framework: what it loads is the
    argument [model_db], [None] when it finds no configuration ([bundle_env]
    only selects the directory it looks in).  The construction of the object
    either stops the bundle and raises [IOError], or leaves the object
    running. *)
Inductive startup : Type :=
  | Stopped (error : string)     (* self.stop(); raise IOError(error) *)
  | Running (w : world OS).

(** [load]: [None] when it raises [IOError], the object with the
    configuration loaded and saved otherwise. *)
Definition load (model_db : option dict) (w : world OS) : option (world OS) :=
  match model_db with
  | None => None
  | Some d => Some (snd (save (set_db d w)))
  end.

Definition init (model_db : option dict) (w : world OS) : startup :=
  match load model_db w with
  | None => Stopped "Cannot load any configuration."
  | Some w =>
      let w := set_cellular None w in
      let w := set_interfaces [] w in
      Running (snd (try_except (update_default (db w)) (fun _ => ret tt) w))
  end.

End IPRoute.

(** ** A scripted host

    A concrete host for running the code: the interfaces with their link
    flag, the default route as [(gateway, interface)], and the outcomes of
    the coming route mutations ([false]: the call raises and changes
    nothing; an exhausted script lets every call succeed). *)
Record host : Type := Host {
  host_links : list (string * Z);
  host_route : option (string * string);
  host_script : list bool
}.

Definition host_step (f : host -> host) (what : string) (h : host)
  : (exn + unit) * host :=
  match host_script h with
  | false :: s =>
      (inl (PrimitiveError what), Host (host_links h) (host_route h) s)
  | true :: s => (inr tt, f (Host (host_links h) (host_route h) s))
  | [] => (inr tt, f h)
  end.

Fixpoint host_link (links : list (string * Z)) (iface : string) : exn + Z :=
  match links with
  | [] => inl (PrimitiveError "no such device")
  | (n, l) :: rest => if decide (n = iface) then inr l else host_link rest iface
  end.

#[global] Instance host_prim : NetPrim host := {
  ip_addr_interfaces h := inr (map fst (host_links h));
  ip_addr_ifaddresses h iface := host_link (host_links h) iface;
  ip_route_delete dest :=
    host_step (fun h => Host (host_links h) None (host_script h))
              "route delete failed";
  ip_route_add dest iface gw :=
    host_step (fun h => Host (host_links h)
                             (Some (default "0.0.0.0" gw, iface))
                             (host_script h))
              "route add failed";
  netifaces_gateways h :=
    match host_route h with
    | Some r => {[ AF_INET := r ]}
    | None => empty
    end
}.


(** ** What the code does, in closed form

    Descriptions of the outcome of the switcher in terms of the primitives
    alone; the lemmas of the next section show that the code computes
    them. *)

Section Outcomes.
Context {OS : Type} `{NetPrim OS}.

(** The interface is reported with link 1. *)
Definition link_up (o : OS) (iface : string) : bool :=
  match ip_addr_ifaddresses o iface with
  | inr link => bool_decide (1 = link)%Z
  | inl _ => false
  end.

(** The interfaces the primitives report as up. *)
Definition up_interfaces (o : OS) : list string :=
  match ip_addr_interfaces o with
  | inr ifaces => List.filter (link_up o) ifaces
  | inl _ => []
  end.

(** The calls of one up-check: the interface listing, then one query per
    interface listed. *)
Definition up_check (o : OS) : list event :=
  EvInterfaces ::
  match ip_addr_interfaces o with
  | inr ifaces => map EvIfaddresses ifaces
  | inl _ => []
  end.

(** The remove/add sequence for the route through [iface] and [gw]: its
    outcome, the host it leaves and the calls it made. *)
Definition apply_route (iface : string) (gw : option string) (o : OS)
  : (exn + unit) * OS * list event :=
  match ip_route_delete "default" o with
  | (inl e, o1) => (inl e, o1, [EvRouteDelete "default"])
  | (inr _, o1) =>
      match ip_route_add "default" iface gw o1 with
      | (r, o2) => (r, o2, [EvRouteDelete "default"; EvRouteAdd "default" iface gw])
      end
  end.

(** The world once the configuration [d] has been put in place and saved,
    the host being [o] after the calls [evs]. *)
Definition persisted (o : OS) (d : dict) (evs : list event) (w : world OS)
  : world OS :=
  World o (cellular w) (interfaces w) d d d
        (trace w ++ evs ++ [EvSaveDb; EvBackupDb]).

(** The world after calls that failed: only the host and the trace moved. *)
Definition failed (o : OS) (evs : list event) (w : world OS) : world OS :=
  World o (cellular w) (interfaces w) (db w) (db_file w) (db_backup w)
        (trace w ++ evs).

(** The outcome of [update_default]. *)
Definition switch (default : dict) (w : world OS) : (exn + unit) * world OS :=
  match default !! "interface" with
  | Some name =>
      if truthy name then
        if decide (name ∈ up_interfaces (os w)) then
          if cellular_truthy (cellular w) then
            (inl (ValueError
                    "Cellular is connected, the default gatewaycannot be changed."),
             failed (os w) (up_check (os w)) w)
          else
            match retrieve_gateway (interfaces w) default with
            | inl e => (inl e, failed (os w) (up_check (os w)) w)
            | inr entry =>
                match apply_route name (entry !! "gateway") (os w) with
                | (inl e, o, evs) => (inl e, failed o (up_check (os w) ++ evs) w)
                | (inr _, o, evs) =>
                    (inr tt, persisted o (<["default" := name]> (db w))
                                       (up_check (os w) ++ evs) w)
                end
            end
        else
          (inl (ValueError "Interface should be UP."),
           failed (os w) (up_check (os w)) w)
      else
        match ip_route_delete "default" (os w) with
        | (inl e, o) => (inl e, failed o [EvRouteDelete "default"] w)
        | (inr _, o) =>
            (inr tt, persisted o (delete "default" (db w))
                               [EvRouteDelete "default"] w)
        end
  | None =>
      match ip_route_delete "default" (os w) with
      | (inl e, o) => (inl e, failed o [EvRouteDelete "default"] w)
      | (inr _, o) =>
          (inr tt, persisted o (delete "default" (db w))
                             [EvRouteDelete "default"] w)
      end
  end.

(** The registry as the code builds it: every entry carries its interface
    name, and no two entries carry the same one. *)
Definition entry_name (iface : dict) : option string := iface !! "interface".

Definition registry_wf (ifaces : list dict) : Prop :=
  Forall (fun iface => is_Some (entry_name iface)) ifaces /\
  NoDup (entry_name <$> ifaces).

(** The first entry of the registry for [name], with its position. *)
Definition find_entry (name : string) (ifaces : list dict) : option (nat * dict) :=
  list_find (fun iface => entry_name iface = Some name) ifaces.

(** The errors of the specification's taxonomy, as the code raises them. *)
Definition InterfaceDown : exn := ValueError "Interface should be UP.".
Definition CellularLocked : exn :=
  ValueError "Cellular is connected, the default gatewaycannot be changed.".

(** The lines written to the log. *)
Definition is_log (ev : event) : bool :=
  match ev with
  | EvLog _ => true
  | _ => false
  end.

(** The calls that change the routing table. *)
Definition is_route_mutation (ev : event) : bool :=
  match ev with
  | EvRouteDelete _ | EvRouteAdd _ _ _ => true
  | _ => false
  end.

(** What [netifaces] reports as the default route, the way [list_default]
    reads it. *)
Definition observed_default (gws : gmap Z (string * string)) : exn + dict :=
  if decide (gws <> empty) then
    match gws !! AF_INET with
    | None => inl (KeyError "2")
    | Some gw => inr (<["interface" := snd gw]> (<["gateway" := fst gw]> empty))
    end
  else inr empty.

(** The recovery step of [_put_default]: [update_default] on the route that
    was observed, a failure being logged and dropped. *)
Definition restore (observed : dict) (w : world OS) : world OS :=
  match update_default observed w with
  | (inr _, w') => w'
  | (inl _, w') => emit (EvLog "Failed to recover the default gateway.") w'
  end.

(** What [_put_default] answers and logs when [update_default] raised [e]. *)
Definition failure_message (e : exn) : string :=
  "Update default gateway failed: " ++ exn_str e.

End Outcomes.

(** ** The code computes these outcomes *)

Section Properties.
Context {OS : Type} `{NetPrim OS}.

Implicit Types (w : world OS) (default interface iface entry : dict)
  (name : string).

Lemma emits_nil w : emits [] w = w.
Proof. destruct w. unfold emits. simpl. by rewrite app_nil_r. Qed.

Lemma emits_emits (a b : list event) w : emits b (emits a w) = emits (a ++ b) w.
Proof. unfold emits. simpl. by rewrite app_assoc. Qed.

Lemma emits_emit (a : list event) (ev : event) w :
  emits a (emit ev w) = emits (ev :: a) w.
Proof. apply (emits_emits [ev]). Qed.

Lemma os_emit (ev : event) w : os (emit ev w) = os w.
Proof. done. Qed.

Lemma failed_emit (o : OS) (ev : event) (evs : list event) w :
  failed o evs (emit ev w) = failed o (ev :: evs) w.
Proof. unfold failed, emit. simpl. by rewrite <- app_assoc. Qed.

Lemma persisted_emit (o : OS) (d : dict) (ev : event) (evs : list event) w :
  persisted o d evs (emit ev w) = persisted o d (ev :: evs) w.
Proof. unfold persisted, emit. simpl. by rewrite <- app_assoc. Qed.

Lemma truthy_nonempty name : truthy name = true <-> name <> "".
Proof. destruct name; simpl; split; congruence. Qed.

(** The loop of [list_interfaces] keeps the interfaces with link 1, in
    order, and queries each interface once. *)
Lemma list_connected_spec (ifaces data : list string) w :
  list_connected ifaces data w =
  (inr (data ++ List.filter (link_up (os w)) ifaces)%list,
   emits (map EvIfaddresses ifaces) w).
Proof.
  revert data w. induction ifaces as [|iface rest IH]; intros data w.
  - simpl. unfold ret. by rewrite app_nil_r, emits_nil.
  - cbn [list_connected map List.filter].
    unfold bind at 1, try_except, call_ifaddresses, link_up at 1.
    unfold bind at 1.
    destruct (ip_addr_ifaddresses (os w) iface) as [e|link] eqn:Hl.
    + unfold ret. by rewrite IH, os_emit, emits_emit.
    + unfold ret. case_decide as Hd.
      * rewrite bool_decide_eq_true_2 by done.
        by rewrite IH, os_emit, emits_emit, <- app_assoc.
      * rewrite bool_decide_eq_false_2 by done.
        by rewrite IH, os_emit, emits_emit.
Qed.

Lemma list_interfaces_spec w :
  list_interfaces w = (inr (up_interfaces (os w)), emits (up_check (os w)) w).
Proof.
  unfold list_interfaces, up_interfaces, up_check.
  unfold bind at 1, try_except, call_interfaces. unfold bind at 1.
  destruct (ip_addr_interfaces (os w)) as [e|ifaces] eqn:Hi; unfold ret.
  - done.
  - by rewrite list_connected_spec, os_emit, emits_emit.
Qed.

Lemma save_spec w :
  save w = (inr tt, World (os w) (cellular w) (interfaces w) (db w) (db w) (db w)
                          (trace w ++ [EvSaveDb; EvBackupDb])).
Proof.
  unfold save, bind, save_db, backup_db, modify, emit, set_db_file, set_db_backup.
  simpl. by rewrite <- app_assoc.
Qed.

(** The entry the loop stops at bears the requested name. *)
Lemma retrieve_gateway_name (ifaces : list dict) default entry name :
  default !! "interface" = Some name ->
  retrieve_gateway ifaces default = inr entry ->
  entry !! "interface" = Some name.
Proof.
  intros Hd. induction ifaces as [|iface rest IH]; simpl.
  - intros [= <-]. done.
  - destruct (iface !! "interface") as [a|] eqn:Ha; [|done].
    rewrite Hd. case_decide as Hab.
    + intros [= <-]. by subst.
    + done.
Qed.

Ltac run :=
  unfold bind, ret, raise, lift, get, modify, try_except, getitem,
    call_route_delete, call_route_add, log_info; cbn beta iota.

Lemma world_eq (o : OS) c l d f b t o' c' l' d' f' b' t' :
  o = o' -> c = c' -> l = l' -> d = d' -> f = f' -> b = b' -> t = t' ->
  World o c l d f b t = World o' c' l' d' f' b' t'.
Proof. by intros -> -> -> -> -> -> ->. Qed.

Ltac world_solve :=
  unfold failed, persisted, set_os, set_db, set_cellular, set_interfaces,
    emit, emits;
  cbn [os cellular interfaces db db_file db_backup trace];
  try (apply (f_equal2 pair); [done|]);
  apply world_eq; cbn -[up_check up_interfaces];
  rewrite <- ?app_assoc; cbn -[up_check up_interfaces]; try done.

(** [update_default] computes [switch]. *)
Lemma update_default_switch default w :
  update_default default w = switch default w.
Proof.
  unfold update_default, switch, has_interface.
  destruct (default !! "interface") as [name|] eqn:Hn.
  - destruct (truthy name) eqn:Ht.
    + unfold bind at 1. unfold bind at 1. rewrite list_interfaces_spec.
      run. rewrite Hn. unfold ret at 1. cbn beta iota.
      destruct (decide (name ∈ up_interfaces (os w))) as [Hin|Hout].
      * rewrite decide_False; cycle 1.
        { intros [Hnil|Hnot]; [|done]. rewrite Hnil in Hin. by inversion Hin. }
        change (cellular (emits (up_check (os w)) w)) with (cellular w).
        destruct (cellular_truthy (cellular w)); [done|].
        change (interfaces (emits (up_check (os w)) w)) with (interfaces w).
        destruct (retrieve_gateway (interfaces w) default) as [e|entry] eqn:Hr;
          [done|].
        pose proof (retrieve_gateway_name _ _ _ _ Hn Hr) as He.
        unfold apply_route. change (os (emits (up_check (os w)) w)) with (os w).
        destruct (ip_route_delete "default" (os w)) as [[e|[]] o1] eqn:Hdel.
        { world_solve. }
        rewrite He. unfold ret.
        destruct (entry !! "gateway") as [gateway|]; cbn -[up_check];
          destruct (ip_route_add "default" name _ o1) as [[e|[]] o2] eqn:Hadd;
          rewrite ?save_spec; world_solve.
      * rewrite decide_True by by right. done.
    + run. destruct (ip_route_delete "default" (os w)) as [[e|[]] o1] eqn:Hdel.
      { done. }
      change (db (set_os o1 _)) with (db w).
      destruct (db w !! "default") as [v|] eqn:Hv; rewrite save_spec;
        world_solve; by rewrite delete_id.
  - run. destruct (ip_route_delete "default" (os w)) as [[e|[]] o1] eqn:Hdel.
    { done. }
    change (db (set_os o1 _)) with (db w).
    destruct (db w !! "default") as [v|] eqn:Hv; rewrite save_spec;
      world_solve; by rewrite delete_id.
Qed.

(** *** The registry loops *)

Lemma retrieve_gateway_spec (ifaces : list dict) default name :
  Forall (fun iface => is_Some (entry_name iface)) ifaces ->
  default !! "interface" = Some name ->
  retrieve_gateway ifaces default =
  inr (match find_entry name ifaces with
       | Some (_, iface) => iface
       | None => default
       end).
Proof.
  intros Hall Hd. unfold find_entry.
  induction Hall as [|iface rest [a Ha] _ IH]; [done|].
  cbn [retrieve_gateway list_find].
  destruct (decide (entry_name iface = Some name)) as [Hy|Hy];
    unfold entry_name in Ha, Hy; rewrite Ha, Hd; rewrite Ha in Hy.
  - rewrite decide_True by congruence. done.
  - rewrite decide_False by congruence. rewrite IH.
    by destruct (list_find _ rest) as [[i e]|].
Qed.

Lemma update_router_spec (ifaces : list dict) interface name :
  Forall (fun iface => is_Some (entry_name iface)) ifaces ->
  interface !! "name" = Some name ->
  update_router ifaces interface =
  inr (match find_entry name ifaces with
       | Some (i, old) =>
           Some (<[i := set_gateway old interface]> ifaces,
                 set_gateway old interface)
       | None => None
       end).
Proof.
  intros Hall Hd. unfold find_entry.
  induction Hall as [|iface rest [a Ha] _ IH]; [done|].
  cbn [update_router list_find].
  destruct (decide (entry_name iface = Some name)) as [Hy|Hy];
    unfold entry_name in Ha, Hy; rewrite Ha, Hd; rewrite Ha in Hy.
  - rewrite decide_True by congruence. done.
  - rewrite decide_False by congruence. rewrite IH.
    by destruct (list_find _ rest) as [[i e]|].
Qed.

Lemma set_gateway_name iface interface :
  entry_name (set_gateway iface interface) = entry_name iface.
Proof.
  unfold set_gateway, entry_name.
  destruct (interface !! "gateway"); [|done]. by rewrite lookup_insert_ne.
Qed.

(** In a well-formed registry the entry for a name is the first one. *)
Lemma registry_find (ifaces : list dict) (i : nat) entry name :
  registry_wf ifaces ->
  ifaces !! i = Some entry -> entry_name entry = Some name ->
  find_entry name ifaces = Some (i, entry).
Proof.
  intros [_ Hnd] Hi Hn. apply list_find_Some. split_and!; [done..|].
  intros j y Hj Hlt Hy.
  assert (i = j) as ->; [|lia].
  eapply NoDup_lookup; [exact Hnd|..]; rewrite list_lookup_fmap.
  - by rewrite Hi; simpl; rewrite Hn.
  - by rewrite Hj; simpl; rewrite Hy.
Qed.

Lemma up_check_queries (o : OS) (ev : event) :
  ev ∈ up_check o -> is_route_mutation ev = false.
Proof.
  unfold up_check. intros [->|Hin]%elem_of_cons; [done|].
  destruct (ip_addr_interfaces o) as [e|ifaces].
  - by apply elem_of_nil in Hin.
  - apply list_elem_of_fmap in Hin as (iface & -> & _). done.
Qed.

(** *** The default gateway switcher *)

(** C4: a request naming an interface that the primitives do not report as
    up is refused with [InterfaceDown]; the only calls made are those of the
    up-check, none of which changes the routing table, and the host, the
    configuration in memory, its file and its backup are as before. *)
Theorem update_default_interface_down default name w :
  default !! "interface" = Some name ->
  name <> "" ->
  name ∉ up_interfaces (os w) ->
  exists w',
    update_default default w = (inl InterfaceDown, w') /\
    os w' = os w /\
    db w' = db w /\ db_file w' = db_file w /\ db_backup w' = db_backup w /\
    trace w' = (trace w ++ up_check (os w))%list /\
    (forall ev, ev ∈ up_check (os w) -> is_route_mutation ev = false).
Proof.
  intros Hd Hne%truthy_nonempty Hdown.
  exists (failed (os w) (up_check (os w)) w).
  split_and!; try done; [|apply up_check_queries].
  rewrite update_default_switch. unfold switch. rewrite Hd, Hne.
  by rewrite decide_False.
Qed.

(** C5: while a cellular interface [x] is active, a request for another up
    interface [y] is refused with [CellularLocked]; the only calls made are
    those of the up-check (no route is deleted or added), and the host and
    the persisted configuration are as before. *)
Theorem update_default_cellular_locked default x y w :
  cellular w = Some x -> x <> "" ->
  default !! "interface" = Some y -> y <> "" ->
  y ∈ up_interfaces (os w) ->
  y <> x ->
  exists w',
    update_default default w = (inl CellularLocked, w') /\
    os w' = os w /\
    db w' = db w /\ db_file w' = db_file w /\ db_backup w' = db_backup w /\
    cellular w' = Some x /\
    trace w' = (trace w ++ up_check (os w))%list /\
    (forall ev, ev ∈ up_check (os w) -> is_route_mutation ev = false).
Proof.
  intros Hc Hx%truthy_nonempty Hd Hy%truthy_nonempty Hup _.
  exists (failed (os w) (up_check (os w)) w).
  split_and!; try done; [|apply up_check_queries].
  rewrite update_default_switch. unfold switch. rewrite Hd, Hy.
  rewrite decide_True by done. rewrite Hc. simpl. by rewrite Hx.
Qed.

(** C2 (what the code does): [cellular_connected(name)] records [name] as
    the active cellular interface and then always raises: [update_default]
    finds the interface down, or finds the cellular lock that was just set.
    No route is deleted or added and nothing is persisted. *)
Theorem cellular_connected_up_raises name w :
  name <> "" ->
  exists e,
    cellular_connected name true w =
      (inl e, failed (os w) (up_check (os w)) (set_cellular (Some name) w)) /\
    (e = InterfaceDown \/ e = CellularLocked).
Proof.
  intros Hne%truthy_nonempty.
  unfold cellular_connected. run. cbn [cellular set_cellular].
  rewrite update_default_switch. unfold switch.
  rewrite lookup_insert_eq, Hne. cbn [os cellular set_cellular].
  case_decide.
  - unfold cellular_truthy. rewrite Hne. eauto.
  - eauto.
Qed.

(** The switcher on a request that passes both checks: the route is applied
    with the gateway of the registry entry the loop resolves to. *)
Lemma update_default_apply default name entry w :
  default !! "interface" = Some name -> name <> "" ->
  name ∈ up_interfaces (os w) ->
  cellular_truthy (cellular w) = false ->
  retrieve_gateway (interfaces w) default = inr entry ->
  update_default default w =
  match apply_route name (entry !! "gateway") (os w) with
  | (inl e, o, evs) => (inl e, failed o (up_check (os w) ++ evs) w)
  | (inr _, o, evs) =>
      (inr tt, persisted o (<["default" := name]> (db w))
                         (up_check (os w) ++ evs) w)
  end.
Proof.
  intros Hd Hne%truthy_nonempty Hup Hc Hr.
  rewrite update_default_switch. unfold switch.
  rewrite Hd, Hne, Hc, Hr. by rewrite decide_True.
Qed.

(** C3: when the registry holds an entry for the requested interface with
    gateway [g], the request is handled exactly as the entry itself would
    be: the route is added through [g], whatever gateway [g'] the request
    carries, and on success the configuration records the interface under
    its one key and nothing of the gateway. *)
Theorem update_default_registry_overrides request entry name g g' w :
  registry_wf (interfaces w) ->
  entry ∈ interfaces w ->
  entry !! "interface" = Some name -> entry !! "gateway" = Some g ->
  request !! "interface" = Some name -> request !! "gateway" = Some g' ->
  name <> "" ->
  name ∈ up_interfaces (os w) ->
  cellular_truthy (cellular w) = false ->
  update_default request w = update_default entry w /\
  match apply_route name (Some g) (os w) with
  | (inl e, o, evs) =>
      update_default request w = (inl e, failed o (up_check (os w) ++ evs) w)
  | (inr _, o, evs) =>
      exists w',
        update_default request w = (inr tt, w') /\
        os w' = o /\
        trace w' = (trace w ++ up_check (os w) ++ evs ++ [EvSaveDb; EvBackupDb])%list /\
        db w' = <["default" := name]> (db w) /\
        db_file w' = db w' /\ db_backup w' = db w' /\
        db w' !! "gateway" = db w !! "gateway" /\
        ((forall key, key <> "default" -> db w !! key = None) ->
         db w' = {[ "default" := name ]})
  end.
Proof.
  intros Hwf [i Hi]%list_elem_of_lookup He Hg Hr Hg' Hne Hup Hc.
  pose proof (registry_find _ _ _ _ Hwf Hi He) as Hfind.
  assert (forall d, d !! "interface" = Some name ->
                    retrieve_gateway (interfaces w) d = inr entry) as Hret.
  { intros d Hd. rewrite (retrieve_gateway_spec _ _ name); [|by apply Hwf|done].
    by rewrite Hfind. }
  rewrite (update_default_apply request name entry), (update_default_apply entry name entry);
    [|by auto..].
  split; [done|]. rewrite Hg.
  destruct (apply_route name (Some g) (os w)) as [[[e|[]] o] evs]; [done|].
  eexists. split_and!; try done.
  - cbn [persisted trace]. by rewrite <- app_assoc.
  - cbn [persisted db]. by rewrite lookup_insert_ne.
  - intros Honly. cbn [persisted db]. apply map_eq. intros key.
    destruct (decide (key = "default")) as [->|Hk].
    + by rewrite lookup_insert_eq, lookup_singleton_eq.
    + rewrite lookup_insert_ne, lookup_singleton_ne by done. by apply Honly.
Qed.

(** A failing [update_default] leaves the object as it was: only the host
    and the trace may have moved. *)
Lemma update_default_raise_frame default e w w' :
  update_default default w = (inl e, w') ->
  db w' = db w /\ db_file w' = db_file w /\ db_backup w' = db_backup w /\
  cellular w' = cellular w /\ interfaces w' = interfaces w.
Proof.
  rewrite update_default_switch. unfold switch.
  repeat (case_match; try done); intros [= <- <-]; done.
Qed.

(** A successful [update_default] for an interface records it and saves. *)
Lemma update_default_return_set default name w w' :
  default !! "interface" = Some name -> name <> "" ->
  update_default default w = (inr tt, w') ->
  db w' = <["default" := name]> (db w) /\
  db_file w' = db w' /\ db_backup w' = db w' /\
  cellular w' = cellular w /\ interfaces w' = interfaces w.
Proof.
  intros Hd Hne%truthy_nonempty.
  rewrite update_default_switch. unfold switch. rewrite Hd, Hne.
  repeat (case_match; try done); intros [= <-]; done.
Qed.

(** The switcher on a request without an interface: the default route is
    removed and the key dropped, or the failure of the removal raised. *)
Lemma update_default_clear default w :
  has_interface default = false ->
  update_default default w =
  match ip_route_delete "default" (os w) with
  | (inl e, o) => (inl e, failed o [EvRouteDelete "default"] w)
  | (inr _, o) =>
      (inr tt, persisted o (delete "default" (db w)) [EvRouteDelete "default"] w)
  end.
Proof.
  unfold has_interface. intros Hno.
  rewrite update_default_switch. unfold switch.
  destruct (default !! "interface") as [name|]; [|done]. by rewrite Hno.
Qed.

Lemma list_default_spec w :
  list_default w =
  (observed_default (netifaces_gateways (os w)), emit EvGateways w).
Proof.
  unfold list_default, observed_default, call_gateways. run.
  case_decide; [|done]. by destruct (_ !! AF_INET).
Qed.

(** [update_default] writes nothing to the log. *)
Lemma up_check_silent (o : OS) : Forall (fun ev => is_log ev = false) (up_check o).
Proof.
  unfold up_check. apply Forall_cons. split; [done|].
  destruct (ip_addr_interfaces o) as [e|ifaces]; [done|].
  apply Forall_fmap, Forall_true. done.
Qed.

Lemma apply_route_silent name (gw : option string) (o : OS) :
  Forall (fun ev => is_log ev = false) (snd (apply_route name gw o)).
Proof.
  unfold apply_route.
  destruct (ip_route_delete "default" o) as [[e|[]] o1]; simpl.
  - by repeat constructor.
  - destruct (ip_route_add "default" name gw o1). simpl. by repeat constructor.
Qed.

Lemma update_default_silent default w :
  exists evs,
    trace (snd (update_default default w)) = (trace w ++ evs)%list /\
    Forall (fun ev => is_log ev = false) evs.
Proof.
  rewrite update_default_switch. unfold switch.
  pose proof (up_check_silent (os w)) as Hup.
  assert (forall o d evs, Forall (fun ev => is_log ev = false) evs ->
            exists evs', trace (persisted o d evs w) = (trace w ++ evs')%list /\
                         Forall (fun ev => is_log ev = false) evs') as Hp.
  { intros o d evs Hevs. eexists. split; [done|].
    apply Forall_app. split; [done|]. by repeat constructor. }
  assert (forall o evs, Forall (fun ev => is_log ev = false) evs ->
            exists evs', trace (failed o evs w) = (trace w ++ evs')%list /\
                         Forall (fun ev => is_log ev = false) evs') as Hf.
  { intros o evs Hevs. by eexists. }
  assert (exists evs',
            trace (snd match ip_route_delete "default" (os w) with
                       | (inl e, o) => (inl e, failed o [EvRouteDelete "default"] w)
                       | (inr _, o) =>
                           (inr tt, persisted o (delete "default" (db w))
                                              [EvRouteDelete "default"] w)
                       end) = (trace w ++ evs')%list /\
            Forall (fun ev => is_log ev = false) evs') as Hclear.
  { destruct (ip_route_delete "default" (os w)) as [[e|[]] o];
      [apply Hf|apply Hp]; by repeat constructor. }
  destruct (default !! "interface") as [name|]; [|exact Hclear].
  destruct (truthy name); [|exact Hclear].
  case_decide; [|by apply Hf].
  destruct (cellular_truthy (cellular w)); [by apply Hf|].
  destruct (retrieve_gateway (interfaces w) default) as [e|entry]; [by apply Hf|].
  pose proof (apply_route_silent name (entry !! "gateway") (os w)) as Hsil.
  destruct (apply_route name (entry !! "gateway") (os w)) as [[[e|[]] o] evs];
    [apply Hf|apply Hp]; apply Forall_app; done.
Qed.

(** *** The PUT handler *)

Lemma put_default_success request observed w w' :
  observed_default (netifaces_gateways (os w)) = inr observed ->
  update_default request (emit EvGateways w) = (inr tt, w') ->
  _put_default (Some request) w = (inr (Response 200 (DataDict (db w'))), w').
Proof.
  intros Hobs Hupd. unfold _put_default. cbn [put_default_schema].
  unfold bind at 1. rewrite list_default_spec, Hobs.
  unfold try_except, bind at 1. by rewrite Hupd.
Qed.

(** When [update_default] raises, the handler runs the recovery exactly
    when a default route had been observed, logs, and answers 404 with the
    failure that was raised first. *)
Lemma put_default_failure request observed e w w' :
  observed_default (netifaces_gateways (os w)) = inr observed ->
  update_default request (emit EvGateways w) = (inl e, w') ->
  _put_default (Some request) w =
  (inr (Response 404 (DataMessage (failure_message e))),
   emit (EvLog (failure_message e))
        (if decide (observed <> empty) then restore observed w' else w')).
Proof.
  intros Hobs Hupd. unfold _put_default. cbn [put_default_schema].
  unfold bind at 1. rewrite list_default_spec, Hobs.
  unfold try_except at 1. unfold bind at 1. rewrite Hupd.
  unfold bind at 1. unfold try_except, restore, failure_message.
  case_decide.
  - by destruct (update_default observed w') as [[e'|[]] w''].
  - done.
Qed.

Lemma observed_none (gws : gmap Z (string * string)) :
  gws = empty -> observed_default gws = inr empty.
Proof. intros ->. done. Qed.

Lemma observed_some (gws : gmap Z (string * string)) (gw ifc : string) :
  gws !! AF_INET = Some (gw, ifc) ->
  observed_default gws =
    inr (<["interface" := ifc]> (<["gateway" := gw]> empty)) /\
  <["interface" := ifc]> (<["gateway" := gw]> (empty : dict)) <> empty.
Proof.
  intros Hg. unfold observed_default. split.
  - rewrite decide_True; [by rewrite Hg|]. intros ->. by rewrite lookup_empty in Hg.
  - apply insert_non_empty.
Qed.

(** C1 (amended): when [update_default] raises [e] for a request, the
    handler answers 404 with [e] and logs it.  If no default route was
    observed before the attempt nothing is restored and the persisted
    configuration is as before.  If a route through [ifc] and [gw] was
    observed, [update_default] is run on it: when that raises, the failure is
    logged, not propagated, and the persisted configuration is as before;
    when it succeeds, the persisted default becomes [ifc]. *)
Theorem put_default_recovery request e w w2 :
  update_default request (emit EvGateways w) = (inl e, w2) ->
  (netifaces_gateways (os w) = empty ->
   _put_default (Some request) w =
     (inr (Response 404 (DataMessage (failure_message e))),
      emit (EvLog (failure_message e)) w2) /\
   db w2 = db w /\ db_file w2 = db_file w /\ db_backup w2 = db_backup w) /\
  (forall gw ifc,
     netifaces_gateways (os w) !! AF_INET = Some (gw, ifc) -> ifc <> "" ->
     match update_default (<["interface" := ifc]> (<["gateway" := gw]> empty)) w2 with
     | (inr _, w3) =>
         _put_default (Some request) w =
           (inr (Response 404 (DataMessage (failure_message e))),
            emit (EvLog (failure_message e)) w3) /\
         db w3 = <["default" := ifc]> (db w) /\
         db_file w3 = db w3 /\ db_backup w3 = db w3
     | (inl _, w3) =>
         _put_default (Some request) w =
           (inr (Response 404 (DataMessage (failure_message e))),
            emit (EvLog (failure_message e))
                 (emit (EvLog "Failed to recover the default gateway.") w3)) /\
         db w3 = db w /\ db_file w3 = db_file w /\ db_backup w3 = db_backup w
     end).
Proof.
  intros Hupd.
  destruct (update_default_raise_frame _ _ _ _ Hupd) as (Hdb & Hfile & Hbak & _).
  split.
  - intros Hnone. split; [|done].
    rewrite (put_default_failure _ empty e w w2); [|by apply observed_none|done].
    by rewrite decide_False by (intros Hne; by apply Hne).
  - intros gw ifc Hobs Hifc.
    destruct (observed_some _ _ _ Hobs) as [Hsome Hne].
    rewrite (put_default_failure _ _ e w w2 Hsome Hupd).
    rewrite decide_True by done. unfold restore.
    destruct (update_default _ w2) as [[e'|[]] w3] eqn:Hrec.
    + destruct (update_default_raise_frame _ _ _ _ Hrec) as (-> & -> & -> & _).
      done.
    + eapply update_default_return_set in Hrec as (-> & -> & -> & _);
        [|apply lookup_insert_eq|done].
      by rewrite Hdb.
Qed.

(** C6 (amended): a request without an interface removes the default route.
    On success the key is dropped from the configuration, which is saved
    and backed up, and the handler answers with it.  On failure
    [update_default] raises the failure of the removal, the configuration
    untouched; the handler answers 404 with that failure after running the
    recovery exactly when a default route had been observed. *)
Theorem put_default_clear request observed w :
  has_interface request = false ->
  observed_default (netifaces_gateways (os w)) = inr observed ->
  match ip_route_delete "default" (os w) with
  | (inr _, o) =>
      update_default request w =
        (inr tt, persisted o (delete "default" (db w)) [EvRouteDelete "default"] w) /\
      _put_default (Some request) w =
        (inr (Response 200 (DataDict (delete "default" (db w)))),
         persisted o (delete "default" (db w))
                   [EvGateways; EvRouteDelete "default"] w)
  | (inl e, o) =>
      update_default request w = (inl e, failed o [EvRouteDelete "default"] w) /\
      _put_default (Some request) w =
        (inr (Response 404 (DataMessage (failure_message e))),
         emit (EvLog (failure_message e))
              (if decide (observed <> empty)
               then restore observed (failed o [EvGateways; EvRouteDelete "default"] w)
               else failed o [EvGateways; EvRouteDelete "default"] w))
  end.
Proof.
  intros Hno Hobs.
  pose proof (update_default_clear request w Hno) as Hw.
  pose proof (update_default_clear request (emit EvGateways w) Hno) as Hw1.
  rewrite os_emit in Hw1.
  destruct (ip_route_delete "default" (os w)) as [[e|[]] o]; (split; [done|]).
  - rewrite failed_emit in Hw1.
    by rewrite (put_default_failure _ _ _ _ _ Hobs Hw1).
  - rewrite persisted_emit in Hw1.
    by rewrite (put_default_success _ _ _ _ Hobs Hw1).
Qed.

(** C7 (amended): [cellular_connected(name, up=False)] clears the cellular
    state whatever it was.  When the persisted default is another
    interface nothing else changes.  When it is [name] the default route is
    removed: on success the key is dropped and the configuration saved, no
    other interface being selected; on failure the error is raised, the
    configuration untouched. *)
Theorem cellular_disconnected name current w :
  db w !! "default" = Some current ->
  (name <> current ->
   cellular_connected name false w = (inr tt, set_cellular None w)) /\
  (name = current ->
   match ip_route_delete "default" (os w) with
   | (inr _, o) =>
       exists w',
         cellular_connected name false w = (inr tt, w') /\
         cellular w' = None /\ os w' = o /\
         db w' = delete "default" (db w) /\ db w' !! "default" = None /\
         db_file w' = db w' /\ db_backup w' = db w' /\
         trace w' = (trace w ++ [EvRouteDelete "default"; EvSaveDb; EvBackupDb])%list
   | (inl e, o) =>
       cellular_connected name false w =
         (inl e, failed o [EvRouteDelete "default"] (set_cellular None w))
   end).
Proof.
  intros Hdb. unfold cellular_connected. run.
  cbn [db set_cellular]. rewrite Hdb. unfold ret. split.
  - intros Hne. by rewrite decide_False.
  - intros ->. rewrite decide_True by done.
    rewrite update_default_clear by done. cbn [os set_cellular].
    destruct (ip_route_delete "default" (os w)) as [[e|[]] o]; [done|].
    eexists. split_and!; try done.
    cbn [persisted db]. apply lookup_delete_eq.
Qed.

(** *** The interface gateway registry *)

(** The entry [update_router_information] leaves for the interface. *)
Lemma upsert_spec interface name w :
  registry_wf (interfaces w) ->
  interface !! "name" = Some name ->
  update_router_information interface w =
  match find_entry name (interfaces w) with
  | Some (i, old) =>
      (inr (set_gateway old interface),
       set_interfaces (<[i := set_gateway old interface]> (interfaces w)) w)
  | None =>
      (inr (set_gateway {[ "interface" := name ]} interface),
       set_interfaces
         (interfaces w ++ [set_gateway {[ "interface" := name ]} interface]) w)
  end.
Proof.
  intros [Hall _] Hn. unfold update_router_information. run.
  rewrite (update_router_spec _ _ name Hall Hn).
  destruct (find_entry name (interfaces w)) as [[i old]|]; [done|].
  unfold new_router. rewrite Hn. by rewrite insert_empty.
Qed.

Lemma find_entry_insert (ifaces : list dict) (i : nat) old new name :
  find_entry name ifaces = Some (i, old) ->
  entry_name new = Some name ->
  find_entry name (<[i := new]> ifaces) = Some (i, new).
Proof.
  unfold find_entry. intros (Hi & _ & Hbefore)%list_find_Some Hnew.
  apply list_find_Some. split_and!; [|done|].
  - apply list_lookup_insert_eq. by eapply lookup_lt_Some.
  - intros j y Hj Hlt. rewrite list_lookup_insert_ne in Hj by lia. eauto.
Qed.

Lemma find_entry_append (ifaces : list dict) new name :
  find_entry name ifaces = None ->
  entry_name new = Some name ->
  find_entry name (ifaces ++ [new]) = Some (length ifaces, new).
Proof.
  unfold find_entry. intros Hnone Hnew.
  apply list_find_Some. split_and!; [|done|].
  - by rewrite lookup_app_r, Nat.sub_diag.
  - intros j y Hj Hlt. rewrite lookup_app_l in Hj by done.
    rewrite list_find_None, Forall_forall in Hnone.
    apply Hnone. by eapply list_elem_of_lookup_2.
Qed.

(** The registry stays well formed. *)
Lemma registry_wf_insert (ifaces : list dict) (i : nat) old new :
  registry_wf ifaces ->
  ifaces !! i = Some old -> entry_name new = entry_name old ->
  registry_wf (<[i := new]> ifaces).
Proof.
  intros [Hall Hnd] Hi Hnew. split.
  - apply Forall_insert; [done|]. rewrite Hnew.
    by eapply (Forall_lookup_1 _ _ _ _ Hall).
  - rewrite list_fmap_insert, Hnew. rewrite list_insert_id; [done|].
    by rewrite list_lookup_fmap, Hi.
Qed.

Lemma registry_wf_append (ifaces : list dict) new name :
  registry_wf ifaces ->
  find_entry name ifaces = None -> entry_name new = Some name ->
  registry_wf (ifaces ++ [new]).
Proof.
  intros [Hall Hnd] Hnone Hnew. split.
  - apply Forall_app. split; [done|]. apply Forall_singleton. by rewrite Hnew.
  - rewrite fmap_app. apply NoDup_app. split_and!; [done| |apply NoDup_singleton].
    intros x (y & -> & Hy)%list_elem_of_fmap Hx%list_elem_of_singleton.
    unfold find_entry in Hnone. rewrite list_find_None, Forall_forall in Hnone.
    apply (Hnone y Hy). by rewrite Hx.
Qed.

Lemma registry_wf_nil : registry_wf [].
Proof. split; [done|]. apply NoDup_nil_2. Qed.

(** C9: the update of the registry always succeeds and changes nothing but
    the registry (no call is made).  An entry that exists keeps its gateway
    when the call brings none, so that the registry is as before, and takes
    the supplied gateway otherwise; when no entry exists one is appended,
    with the gateway only when supplied. *)
Theorem update_router_information_upsert interface name w :
  registry_wf (interfaces w) ->
  interface !! "name" = Some name ->
  exists entry l',
    update_router_information interface w = (inr entry, set_interfaces l' w) /\
    registry_wf l' /\
    entry ∈ l' /\ entry !! "interface" = Some name /\
    (forall i old,
       interfaces w !! i = Some old -> old !! "interface" = Some name ->
       l' = <[i := entry]> (interfaces w) /\
       match interface !! "gateway" with
       | None => entry = old /\ l' = interfaces w
       | Some g => entry = <["gateway" := g]> old
       end) /\
    ((forall old, old ∈ interfaces w -> old !! "interface" <> Some name) ->
     l' = (interfaces w ++ [entry])%list /\
     entry = match interface !! "gateway" with
             | None => {[ "interface" := name ]}
             | Some g => <["gateway" := g]> {[ "interface" := name ]}
             end).
Proof.
  intros Hwf Hn. rewrite (upsert_spec _ name) by done.
  destruct (find_entry name (interfaces w)) as [[i old]|] eqn:Hfind.
  - pose proof Hfind as (Hi & Hold & _)%list_find_Some.
    eexists _, _. split; [done|]. split_and!.
    + eapply registry_wf_insert; [done..|apply set_gateway_name].
    + eapply list_elem_of_lookup_2, list_lookup_insert_eq. by eapply lookup_lt_Some.
    + change (entry_name (set_gateway old interface) = Some name).
      by rewrite set_gateway_name.
    + intros j old' Hj Hname.
      rewrite (registry_find _ _ _ _ Hwf Hj Hname) in Hfind.
      injection Hfind as -> ->. split; [done|].
      unfold set_gateway. destruct (interface !! "gateway"); [done|].
      split; [done|]. by apply list_insert_id.
    + intros Hno. exfalso. eapply Hno; [|exact Hold].
      by eapply list_elem_of_lookup_2.
  - eexists _, _. split; [done|].
    assert (entry_name (set_gateway {["interface" := name]} interface) = Some name)
      as Hnew by (rewrite set_gateway_name; apply lookup_singleton_eq).
    split_and!; try done.
    + by eapply registry_wf_append.
    + apply elem_of_app. right. by apply list_elem_of_singleton.
    + intros i old Hi Hname.
      by rewrite (registry_find _ _ _ _ Hwf Hi Hname) in Hfind.
Qed.

(** [update_default] looks at its argument only through the interface it
    names and the registry entry it resolves to. *)
Lemma update_default_ext (d1 d2 : dict) w :
  d1 !! "interface" = d2 !! "interface" ->
  retrieve_gateway (interfaces w) d1 = retrieve_gateway (interfaces w) d2 ->
  update_default d1 w = update_default d2 w.
Proof.
  intros Hi Hr. rewrite !update_default_switch. unfold switch.
  by rewrite Hi, Hr.
Qed.

(** After its update, the registry resolves the name to the entry. *)
Lemma upsert_resolves interface name entry w w1 :
  registry_wf (interfaces w) ->
  interface !! "name" = Some name ->
  update_router_information interface w = (inr entry, w1) ->
  registry_wf (interfaces w1) /\
  entry !! "interface" = Some name /\
  (exists i, find_entry name (interfaces w1) = Some (i, entry)) /\
  w1 = set_interfaces (interfaces w1) w /\
  entry !! "gateway" =
    match interface !! "gateway", find_entry name (interfaces w) with
    | Some g, _ => Some g
    | None, Some (_, old) => old !! "gateway"
    | None, None => None
    end.
Proof.
  intros Hwf Hn. rewrite (upsert_spec _ name) by done.
  assert (forall old, set_gateway old interface !! "gateway" =
                      match interface !! "gateway" with
                      | Some g => Some g
                      | None => old !! "gateway"
                      end) as Hgw.
  { intros old. unfold set_gateway. destruct (interface !! "gateway"); [|done].
    apply lookup_insert_eq. }
  destruct (find_entry name (interfaces w)) as [[i old]|] eqn:Hfind;
    intros [= <- <-]; cbn [interfaces set_interfaces].
  - pose proof Hfind as (Hi & Hold & _)%list_find_Some.
    assert (entry_name (set_gateway old interface) = Some name) as Hnew
      by by rewrite set_gateway_name.
    split_and!; [|done| |done|].
    + eapply registry_wf_insert; [done..|apply set_gateway_name].
    + eexists. by eapply find_entry_insert.
    + rewrite Hgw. by destruct (interface !! "gateway").
  - assert (entry_name (set_gateway {["interface" := name]} interface) = Some name)
      as Hnew by (rewrite set_gateway_name; apply lookup_singleton_eq).
    split_and!; [|done| |done|].
    + by eapply registry_wf_append.
    + eexists. by eapply find_entry_append.
    + rewrite Hgw. destruct (interface !! "gateway"); [done|].
      by rewrite lookup_singleton_ne.
Qed.

(** The update of the registry returns and touches the registry only. *)
Lemma upsert_returns interface name w :
  registry_wf (interfaces w) ->
  interface !! "name" = Some name ->
  exists entry l',
    update_router_information interface w = (inr entry, set_interfaces l' w).
Proof.
  intros Hwf Hn. rewrite (upsert_spec _ name) by done.
  destruct (find_entry name (interfaces w)) as [[i old]|]; eauto.
Qed.

(** *** The interface update handler *)

(** [update_interface_router] after the update of the registry. *)
Lemma update_interface_router_spec interface name entry w w1 :
  update_router_information interface w = (inr entry, w1) ->
  entry !! "interface" = Some name ->
  db w1 = db w ->
  update_interface_router interface w =
  match db w !! "default" with
  | None => (inl (KeyError "default"), w1)
  | Some current =>
      if decide (name = current)
      then (inr tt, snd (update_default entry w1))
      else (inr tt, w1)
  end.
Proof.
  intros Hup Hn Hdb. unfold update_interface_router.
  unfold bind at 1. rewrite Hup. run. rewrite Hn. unfold ret at 1.
  cbn beta iota. rewrite Hdb.
  destruct (db w !! "default") as [current|]; [|done]. unfold ret.
  case_decide; [|done].
  by destruct (update_default entry w1) as [[e|[]] w2].
Qed.

(** C8 (amended): the registry is updated first; then, exactly when the
    name is the persisted default, [update_default] is run on the registry
    entry, which is what a request for [{interface: name}] does, with the
    gateway now registered; whatever it raises is dropped, and nothing is
    written to the log.  With another persisted default, or none, only the
    registry has changed. *)
Theorem update_interface_router_reapply interface name w :
  registry_wf (interfaces w) ->
  interface !! "name" = Some name ->
  exists entry w1,
    update_router_information interface w = (inr entry, w1) /\
    w1 = set_interfaces (interfaces w1) w /\
    retrieve_gateway (interfaces w1) {[ "interface" := name ]} = inr entry /\
    entry !! "gateway" =
      match interface !! "gateway", find_entry name (interfaces w) with
      | Some g, _ => Some g
      | None, Some (_, old) => old !! "gateway"
      | None, None => None
      end /\
    update_default entry w1 = update_default {[ "interface" := name ]} w1 /\
    (name <> "" -> name ∈ up_interfaces (os w) ->
     cellular_truthy (cellular w) = false ->
     update_default {[ "interface" := name ]} w1 =
     match apply_route name (entry !! "gateway") (os w) with
     | (inl e, o, evs) => (inl e, failed o (up_check (os w) ++ evs) w1)
     | (inr _, o, evs) =>
         (inr tt, persisted o (<["default" := name]> (db w))
                            (up_check (os w) ++ evs) w1)
     end) /\
    update_interface_router interface w =
      match db w !! "default" with
      | None => (inl (KeyError "default"), w1)
      | Some current =>
          if decide (name = current)
          then (inr tt, snd (update_default {[ "interface" := name ]} w1))
          else (inr tt, w1)
      end /\
    (exists evs,
       trace (snd (update_interface_router interface w)) = (trace w ++ evs)%list /\
       Forall (fun ev => is_log ev = false) evs).
Proof.
  intros Hwf Hn.
  destruct (upsert_returns interface name w Hwf Hn) as (entry & l' & Hup).
  exists entry, (set_interfaces l' w).
  destruct (upsert_resolves _ _ _ _ _ Hwf Hn Hup)
    as (Hwf1 & Hname & [i Hfind] & Hw1 & Hgw).
  assert (forall d : dict, d !! "interface" = Some name ->
            retrieve_gateway (interfaces (set_interfaces l' w)) d = inr entry)
    as Hret.
  { intros d Hd. rewrite (retrieve_gateway_spec _ _ name); [|apply Hwf1|done].
    by rewrite Hfind. }
  assert (update_default entry (set_interfaces l' w) =
          update_default {["interface" := name]} (set_interfaces l' w)) as Hext.
  { apply update_default_ext.
    - by rewrite Hname, lookup_singleton_eq.
    - rewrite !Hret; [done|apply lookup_singleton_eq|done]. }
  split_and!; try done.
  - apply Hret, lookup_singleton_eq.
  - intros Hne Hupi Hc.
    by rewrite (update_default_apply _ name entry);
      [|apply lookup_singleton_eq|..|apply Hret, lookup_singleton_eq].
  - rewrite <- Hext. by eapply update_interface_router_spec.
  - rewrite (update_interface_router_spec _ name entry w _ Hup Hname) by done.
    assert (exists evs, trace (set_interfaces l' w) = (trace w ++ evs)%list /\
                        Forall (fun ev => is_log ev = false) evs) as Hsame.
    { exists []. by rewrite app_nil_r. }
    destruct (db w !! "default") as [current|]; [|done].
    case_decide; [|done]. apply (update_default_silent entry (set_interfaces l' w)).
Qed.

(** What the update of the registry leaves: the entry for the name, with
    the gateway supplied if any, in the place of the former entry or at the
    end of the list. *)
Lemma upsert_written interface name w :
  registry_wf (interfaces w) ->
  interface !! "name" = Some name ->
  exists entry l',
    update_router_information interface w = (inr entry, set_interfaces l' w) /\
    entry ∈ l' /\ entry !! "interface" = Some name /\
    (forall g, interface !! "gateway" = Some g -> entry !! "gateway" = Some g) /\
    (forall i old,
       interfaces w !! i = Some old -> old !! "interface" = Some name ->
       l' = <[i := entry]> (interfaces w) /\
       entry = match interface !! "gateway" with
               | Some g => <["gateway" := g]> old
               | None => old
               end) /\
    ((forall old, old ∈ interfaces w -> old !! "interface" <> Some name) ->
     l' = (interfaces w ++ [entry])%list /\
     entry = match interface !! "gateway" with
             | Some g => <["gateway" := g]> {[ "interface" := name ]}
             | None => {[ "interface" := name ]}
             end).
Proof.
  intros Hwf Hn. rewrite (upsert_spec _ name) by done.
  assert (forall old g, interface !! "gateway" = Some g ->
                        set_gateway old interface !! "gateway" = Some g) as Hgw.
  { intros old g Hg. unfold set_gateway. rewrite Hg. apply lookup_insert_eq. }
  destruct (find_entry name (interfaces w)) as [[i old]|] eqn:Hfind.
  - pose proof Hfind as (Hi & Hold & _)%list_find_Some.
    eexists _, _. split; [done|]. split_and!.
    + eapply list_elem_of_lookup_2, list_lookup_insert_eq. by eapply lookup_lt_Some.
    + change (entry_name (set_gateway old interface) = Some name).
      by rewrite set_gateway_name.
    + apply Hgw.
    + intros j old' Hj Hname.
      rewrite (registry_find _ _ _ _ Hwf Hj Hname) in Hfind.
      injection Hfind as -> ->. split; [done|].
      unfold set_gateway. by destruct (interface !! "gateway").
    + intros Hno. exfalso. eapply Hno; [|exact Hold].
      by eapply list_elem_of_lookup_2.
  - eexists _, _. split; [done|]. split_and!.
    + apply elem_of_app. right. by apply list_elem_of_singleton.
    + change (entry_name (set_gateway {["interface" := name]} interface) = Some name).
      rewrite set_gateway_name. apply lookup_singleton_eq.
    + apply Hgw.
    + intros i old Hi Hname.
      by rewrite (registry_find _ _ _ _ Hwf Hi Hname) in Hfind.
    + intros _. split; [done|].
      unfold set_gateway. by destruct (interface !! "gateway").
Qed.

(** C10: with no default key in the configuration, [update_interface_router]
    raises [KeyError] once the registry has been written: the object it
    leaves holds the registry with the entry for the name, carrying the
    gateway supplied, in the place of the former entry or appended when
    there was none; nothing on the way to the caller catches the error.
    [cellular_connected(name, up=False)] raises [KeyError] once the cellular
    state has been cleared. *)
Theorem missing_default_raises interface name w :
  db w !! "default" = None ->
  registry_wf (interfaces w) ->
  interface !! "name" = Some name ->
  (exists entry l',
     entry ∈ l' /\ entry !! "interface" = Some name /\
     (forall g, interface !! "gateway" = Some g -> entry !! "gateway" = Some g) /\
     (forall i old,
        interfaces w !! i = Some old -> old !! "interface" = Some name ->
        l' = <[i := entry]> (interfaces w) /\
        entry = match interface !! "gateway" with
                | Some g => <["gateway" := g]> old
                | None => old
                end) /\
     ((forall old, old ∈ interfaces w -> old !! "interface" <> Some name) ->
      l' = (interfaces w ++ [entry])%list /\
      entry = match interface !! "gateway" with
              | Some g => <["gateway" := g]> {[ "interface" := name ]}
              | None => {[ "interface" := name ]}
              end) /\
     update_router_information interface w = (inr entry, set_interfaces l' w) /\
     update_interface_router interface w =
       (inl (KeyError "default"), set_interfaces l' w) /\
     _event_router_db interface w =
       (inl (KeyError "default"), set_interfaces l' w) /\
     set_router_db (RouterDict interface) w =
       (inl (KeyError "default"), set_interfaces l' w) /\
     set_router_db (RouterList [interface]) w =
       (inl (KeyError "default"), set_interfaces l' w)) /\
  cellular_connected name false w =
    (inl (KeyError "default"), set_cellular None w) /\
  cellular (snd (cellular_connected name false w)) = None.
Proof.
  intros Hdb Hwf Hn. split.
  - destruct (upsert_written interface name w Hwf Hn)
      as (entry & l' & Hup & Hin & Hname & Hgw & Hold & Hnew).
    exists entry, l'.
    assert (update_interface_router interface w =
            (inl (KeyError "default"), set_interfaces l' w)) as Hraise.
    { rewrite (update_interface_router_spec _ name entry w _ Hup Hname) by done.
      by rewrite Hdb. }
    split_and!; try done.
    + unfold set_router_db, bind. by rewrite Hraise.
    + unfold set_router_db, update_each, bind. by rewrite Hraise.
  - assert (cellular_connected name false w =
            (inl (KeyError "default"), set_cellular None w)) as Hc.
    { unfold cellular_connected. run. cbn [db set_cellular]. by rewrite Hdb. }
    by rewrite Hc.
Qed.

End Properties.

(** ** Runs on the scripted host *)

(** Two wired interfaces and a cellular one are up, [eth2] is down; the
    default route goes through [eth0]. *)
Definition lab_links : list (string * Z) :=
  [("eth0", 1%Z); ("eth1", 1%Z); ("ppp0", 1%Z); ("eth2", 0%Z)].

Definition lab (script : list bool) : host :=
  Host lab_links (Some ("10.0.0.1", "eth0")) script.

(** A freshly started object: no cellular interface, an empty registry and
    no persisted default. *)
Definition fresh (script : list bool) : world host :=
  World (lab script) None [] empty empty empty [].

(** The object with a cellular interface active. *)
Definition with_cellular (x : string) : world host :=
  World (lab []) (Some x) [] empty empty empty [].

(** The object once [eth0] has been registered with a gateway and made the
    persisted default. *)
Definition eth0_entry : dict := <["gateway" := "10.0.0.1"]> {[ "interface" := "eth0" ]}.

Definition settled (script : list bool) : world host :=
  World (lab script) None [eth0_entry]
        {[ "default" := "eth0" ]} {[ "default" := "eth0" ]} {[ "default" := "eth0" ]} [].

Lemma settled_wf script : registry_wf (interfaces (settled script)).
Proof. compute_done. Qed.

(** C4, on the host: [eth2] is down. *)
Lemma update_default_interface_down_witness :
  exists w',
    update_default {[ "interface" := "eth2" ]} (fresh []) = (inl InterfaceDown, w') /\
    os w' = os (fresh []) /\
    db w' = db (fresh []) /\ db_file w' = db_file (fresh []) /\
    db_backup w' = db_backup (fresh []) /\
    trace w' = (trace (fresh []) ++ up_check (os (fresh [])))%list /\
    (forall ev, ev ∈ up_check (os (fresh [])) -> is_route_mutation ev = false).
Proof.
  apply (update_default_interface_down _ "eth2");
    [reflexivity|compute_done|compute_done].
Defined.

(** The handler on the same request: it answers 404 with the refusal, and
    its recovery then applies anew the route it had observed, which it
    records as the persisted default. *)
Example down_request_scenario :
  _put_default (Some {[ "interface" := "eth2" ]}) (fresh []) =
    (inr (Response 404
            (DataMessage "Update default gateway failed: Interface should be UP.")),
     World (lab []) None []
           {[ "default" := "eth0" ]} {[ "default" := "eth0" ]} {[ "default" := "eth0" ]}
           [EvGateways;
            EvInterfaces; EvIfaddresses "eth0"; EvIfaddresses "eth1";
            EvIfaddresses "ppp0"; EvIfaddresses "eth2";
            EvInterfaces; EvIfaddresses "eth0"; EvIfaddresses "eth1";
            EvIfaddresses "ppp0"; EvIfaddresses "eth2";
            EvRouteDelete "default"; EvRouteAdd "default" "eth0" (Some "10.0.0.1");
            EvSaveDb; EvBackupDb;
            EvLog "Update default gateway failed: Interface should be UP."]).
Proof. vm_compute. reflexivity. Qed.

(** C5, on the host: [ppp0] is active and [eth1], which is up, is asked
    for. *)
Lemma update_default_cellular_locked_witness :
  exists w',
    update_default {[ "interface" := "eth1" ]} (with_cellular "ppp0") =
      (inl CellularLocked, w') /\
    os w' = os (with_cellular "ppp0") /\
    db w' = db (with_cellular "ppp0") /\
    db_file w' = db_file (with_cellular "ppp0") /\
    db_backup w' = db_backup (with_cellular "ppp0") /\
    cellular w' = Some "ppp0" /\
    trace w' = (trace (with_cellular "ppp0") ++ up_check (os (with_cellular "ppp0")))%list /\
    (forall ev, ev ∈ up_check (os (with_cellular "ppp0")) ->
                is_route_mutation ev = false).
Proof.
  apply (update_default_cellular_locked _ "ppp0" "eth1");
    [reflexivity|compute_done|reflexivity|compute_done..].
Defined.

(** The handler on the same request: its recovery meets the lock too, so
    that no route is removed or added. *)
Example locked_request_scenario :
  _put_default (Some {[ "interface" := "eth1" ]}) (with_cellular "ppp0") =
    (inr (Response 404
            (DataMessage
               "Update default gateway failed: Cellular is connected, the default gatewaycannot be changed.")),
     World (lab []) (Some "ppp0") [] empty empty empty
           [EvGateways;
            EvInterfaces; EvIfaddresses "eth0"; EvIfaddresses "eth1";
            EvIfaddresses "ppp0"; EvIfaddresses "eth2";
            EvInterfaces; EvIfaddresses "eth0"; EvIfaddresses "eth1";
            EvIfaddresses "ppp0"; EvIfaddresses "eth2";
            EvLog "Failed to recover the default gateway.";
            EvLog "Update default gateway failed: Cellular is connected, the default gatewaycannot be changed."]).
Proof. vm_compute. reflexivity. Qed.

(** C2, on the host: the cellular interface [ppp0] comes up on a fresh
    object; the call raises and the route through [eth0] stays. *)
Lemma cellular_connected_up_raises_witness :
  exists e,
    cellular_connected "ppp0" true (fresh []) =
      (inl e, failed (os (fresh [])) (up_check (os (fresh [])))
                     (set_cellular (Some "ppp0") (fresh []))) /\
    (e = InterfaceDown \/ e = CellularLocked).
Proof.
  apply (cellular_connected_up_raises "ppp0"); compute_done.
Defined.

Example cellular_connected_ppp0 :
  cellular_connected "ppp0" true (fresh []) =
    (inl CellularLocked,
     World (lab []) (Some "ppp0") [] empty empty empty
           [EvInterfaces; EvIfaddresses "eth0"; EvIfaddresses "eth1";
            EvIfaddresses "ppp0"; EvIfaddresses "eth2"]).
Proof. vm_compute. reflexivity. Qed.

(** C3, on the host: [eth0] is registered with gateway 10.0.0.1 and the
    request brings 192.168.1.1. *)
Lemma update_default_registry_overrides_witness :
  update_default (<["gateway" := "192.168.1.1"]> {[ "interface" := "eth0" ]})
                 (settled []) =
    update_default eth0_entry (settled []) /\
  match apply_route "eth0" (Some "10.0.0.1") (os (settled [])) with
  | (inl e, o, evs) =>
      update_default (<["gateway" := "192.168.1.1"]> {[ "interface" := "eth0" ]})
                     (settled []) =
        (inl e, failed o (up_check (os (settled [])) ++ evs) (settled []))
  | (inr _, o, evs) =>
      exists w',
        update_default (<["gateway" := "192.168.1.1"]> {[ "interface" := "eth0" ]})
                       (settled []) = (inr tt, w') /\
        os w' = o /\
        trace w' = (trace (settled []) ++ up_check (os (settled [])) ++ evs
                    ++ [EvSaveDb; EvBackupDb])%list /\
        db w' = <["default" := "eth0"]> (db (settled [])) /\
        db_file w' = db w' /\ db_backup w' = db w' /\
        db w' !! "gateway" = db (settled []) !! "gateway" /\
        ((forall key, key <> "default" -> db (settled []) !! key = None) ->
         db w' = {[ "default" := "eth0" ]})
  end.
Proof.
  apply (update_default_registry_overrides _ eth0_entry "eth0" "10.0.0.1" "192.168.1.1");
    [apply settled_wf|compute_done|reflexivity|reflexivity|reflexivity|reflexivity
    |compute_done|compute_done|reflexivity].
Defined.

Example registry_gateway_applied :
  update_default (<["gateway" := "192.168.1.1"]> {[ "interface" := "eth0" ]})
                 (settled []) =
    (inr tt,
     World (lab []) None [eth0_entry]
           {[ "default" := "eth0" ]} {[ "default" := "eth0" ]} {[ "default" := "eth0" ]}
           [EvInterfaces; EvIfaddresses "eth0"; EvIfaddresses "eth1";
            EvIfaddresses "ppp0"; EvIfaddresses "eth2";
            EvRouteDelete "default"; EvRouteAdd "default" "eth0" (Some "10.0.0.1");
            EvSaveDb; EvBackupDb]).
Proof. vm_compute. reflexivity. Qed.

(** A fresh object on a host where the next removal succeeds and the next
    addition fails, a request for [eth1], and the object after
    [update_default] has raised on it. *)
Definition add_fails : world host := fresh [true; false].

Definition eth1_request : dict := {[ "interface" := "eth1" ]}.

Definition add_failed : world host :=
  World (Host lab_links None []) None [] empty empty empty
        [EvGateways; EvInterfaces; EvIfaddresses "eth0"; EvIfaddresses "eth1";
         EvIfaddresses "ppp0"; EvIfaddresses "eth2";
         EvRouteDelete "default"; EvRouteAdd "default" "eth1" None].

(** A fresh object on a host where the next removal fails. *)
Definition delete_fails : world host := fresh [false].

(** The route the handler observes on the lab host. *)
Definition lab_observed : dict :=
  <["interface" := "eth0"]> (<["gateway" := "10.0.0.1"]> empty).

(** C1 as stated fails.  Nothing is persisted yet and the host's default
    route goes through [eth0]; a request for [eth1] passes the checks, the
    removal succeeds and the addition fails.  The recovery brings the route
    through [eth0] back and, being [update_default], records [eth0] as the
    persisted default: the configuration is not what it was. *)
Lemma put_default_recovery_persists :
  update_default eth1_request (emit EvGateways add_fails) =
    (inl (PrimitiveError "route add failed"), add_failed) /\
  fst (_put_default (Some eth1_request) add_fails) =
    inr (Response 404
           (DataMessage "Update default gateway failed: route add failed")) /\
  db add_fails = empty /\
  db (snd (_put_default (Some eth1_request) add_fails)) = {[ "default" := "eth0" ]} /\
  db_file (snd (_put_default (Some eth1_request) add_fails)) = {[ "default" := "eth0" ]} /\
  db (snd (_put_default (Some eth1_request) add_fails)) <> db add_fails.
Proof. split_and!; [vm_compute; reflexivity..|compute_done]. Qed.

(** C1 (amended), on the same run. *)
Lemma put_default_recovery_witness :
  (netifaces_gateways (os add_fails) = empty ->
   _put_default (Some eth1_request) add_fails =
     (inr (Response 404
             (DataMessage (failure_message (PrimitiveError "route add failed")))),
      emit (EvLog (failure_message (PrimitiveError "route add failed"))) add_failed) /\
   db add_failed = db add_fails /\ db_file add_failed = db_file add_fails /\
   db_backup add_failed = db_backup add_fails) /\
  (forall gw ifc,
     netifaces_gateways (os add_fails) !! AF_INET = Some (gw, ifc) -> ifc <> "" ->
     match update_default (<["interface" := ifc]> (<["gateway" := gw]> empty))
                          add_failed with
     | (inr _, w3) =>
         _put_default (Some eth1_request) add_fails =
           (inr (Response 404
                   (DataMessage (failure_message (PrimitiveError "route add failed")))),
            emit (EvLog (failure_message (PrimitiveError "route add failed"))) w3) /\
         db w3 = <["default" := ifc]> (db add_fails) /\
         db_file w3 = db w3 /\ db_backup w3 = db w3
     | (inl _, w3) =>
         _put_default (Some eth1_request) add_fails =
           (inr (Response 404
                   (DataMessage (failure_message (PrimitiveError "route add failed")))),
            emit (EvLog (failure_message (PrimitiveError "route add failed")))
                 (emit (EvLog "Failed to recover the default gateway.") w3)) /\
         db w3 = db add_fails /\ db_file w3 = db_file add_fails /\
         db_backup w3 = db_backup add_fails
     end).
Proof.
  apply (put_default_recovery eth1_request (PrimitiveError "route add failed")
                              add_fails add_failed).
  vm_compute. reflexivity.
Defined.

(** The rollback scenario: [eth0] is the persisted default, the request for
    [eth1] fails on the addition, and after the recovery both the route and
    the configuration are what they were. *)
Example rollback_scenario :
  fst (_put_default (Some eth1_request) (settled [true; false])) =
    inr (Response 404
           (DataMessage "Update default gateway failed: route add failed")) /\
  host_route (os (snd (_put_default (Some eth1_request) (settled [true; false])))) =
    host_route (os (settled [true; false])) /\
  db (snd (_put_default (Some eth1_request) (settled [true; false]))) =
    db (settled [true; false]) /\
  db_file (snd (_put_default (Some eth1_request) (settled [true; false]))) =
    db_file (settled [true; false]).
Proof. split_and!; vm_compute; reflexivity. Qed.

(** C6 as stated fails.  The removal asked by the empty request fails; the
    handler then runs the recovery for the route it had observed, which
    removes and adds the route through [eth0] and records [eth0] in a
    configuration that had no default. *)
Lemma put_default_clear_rolls_back :
  update_default empty (emit EvGateways delete_fails) =
    (inl (PrimitiveError "route delete failed"),
     World (lab []) None [] empty empty empty [EvGateways; EvRouteDelete "default"]) /\
  fst (_put_default (Some empty) delete_fails) =
    inr (Response 404
           (DataMessage "Update default gateway failed: route delete failed")) /\
  trace (snd (_put_default (Some empty) delete_fails)) =
    [EvGateways; EvRouteDelete "default";
     EvInterfaces; EvIfaddresses "eth0"; EvIfaddresses "eth1";
     EvIfaddresses "ppp0"; EvIfaddresses "eth2";
     EvRouteDelete "default"; EvRouteAdd "default" "eth0" (Some "10.0.0.1");
     EvSaveDb; EvBackupDb;
     EvLog "Update default gateway failed: route delete failed"] /\
  db delete_fails = empty /\
  db (snd (_put_default (Some empty) delete_fails)) = {[ "default" := "eth0" ]} /\
  db (snd (_put_default (Some empty) delete_fails)) <> db delete_fails.
Proof. split_and!; [vm_compute; reflexivity..|compute_done]. Qed.

(** C6 (amended), on the same run. *)
Lemma put_default_clear_witness :
  match ip_route_delete "default" (os delete_fails) with
  | (inr _, o) =>
      update_default empty delete_fails =
        (inr tt, persisted o (delete "default" (db delete_fails))
                           [EvRouteDelete "default"] delete_fails) /\
      _put_default (Some empty) delete_fails =
        (inr (Response 200 (DataDict (delete "default" (db delete_fails)))),
         persisted o (delete "default" (db delete_fails))
                   [EvGateways; EvRouteDelete "default"] delete_fails)
  | (inl e, o) =>
      update_default empty delete_fails =
        (inl e, failed o [EvRouteDelete "default"] delete_fails) /\
      _put_default (Some empty) delete_fails =
        (inr (Response 404 (DataMessage (failure_message e))),
         emit (EvLog (failure_message e))
              (if decide (lab_observed <> empty)
               then restore lab_observed
                      (failed o [EvGateways; EvRouteDelete "default"] delete_fails)
               else failed o [EvGateways; EvRouteDelete "default"] delete_fails))
  end.
Proof.
  apply (put_default_clear empty lab_observed delete_fails);
    [reflexivity|vm_compute; reflexivity].
Defined.

(** A clear request that succeeds. *)
Example clear_scenario :
  _put_default (Some empty) (settled []) =
    (inr (Response 200 (DataDict empty)),
     World (Host lab_links None []) None [eth0_entry] empty empty empty
           [EvGateways; EvRouteDelete "default"; EvSaveDb; EvBackupDb]).
Proof. vm_compute. reflexivity. Qed.

(** C7 as stated fails.  With [ppp1] active, the disconnection of [ppp0]
    clears the cellular state all the same; and on an object that never had
    a cellular interface, the disconnection of the persisted default [eth0]
    removes the route and the key. *)
Definition ppp1_active : world host :=
  World (lab []) (Some "ppp1") [] {[ "default" := "eth0" ]}
        {[ "default" := "eth0" ]} {[ "default" := "eth0" ]} [].

Lemma cellular_disconnected_not_noop :
  (cellular ppp1_active = Some "ppp1" /\
   cellular_connected "ppp0" false ppp1_active =
     (inr tt, set_cellular None ppp1_active) /\
   snd (cellular_connected "ppp0" false ppp1_active) <> ppp1_active) /\
  (cellular (settled []) = None /\
   cellular_connected "eth0" false (settled []) =
     (inr tt,
      World (Host lab_links None []) None [eth0_entry] empty empty empty
            [EvRouteDelete "default"; EvSaveDb; EvBackupDb]) /\
   snd (cellular_connected "eth0" false (settled [])) <> settled []).
Proof.
  split_and!; try (vm_compute; reflexivity).
  - intros Heq. apply (f_equal cellular) in Heq. vm_compute in Heq. discriminate.
  - intros Heq. apply (f_equal trace) in Heq. vm_compute in Heq. discriminate.
Qed.

(** C7 (amended), on the host: [ppp0] is the persisted default. *)
Definition ppp0_default : world host :=
  World (Host lab_links (Some ("0.0.0.0", "ppp0")) []) (Some "ppp0") []
        {[ "default" := "ppp0" ]} {[ "default" := "ppp0" ]} {[ "default" := "ppp0" ]} [].

Lemma cellular_disconnected_witness :
  ("ppp0" <> "ppp0" ->
   cellular_connected "ppp0" false ppp0_default =
     (inr tt, set_cellular None ppp0_default)) /\
  ("ppp0" = "ppp0" ->
   match ip_route_delete "default" (os ppp0_default) with
   | (inr _, o) =>
       exists w',
         cellular_connected "ppp0" false ppp0_default = (inr tt, w') /\
         cellular w' = None /\ os w' = o /\
         db w' = delete "default" (db ppp0_default) /\ db w' !! "default" = None /\
         db_file w' = db w' /\ db_backup w' = db w' /\
         trace w' = (trace ppp0_default
                     ++ [EvRouteDelete "default"; EvSaveDb; EvBackupDb])%list
   | (inl e, o) =>
       cellular_connected "ppp0" false ppp0_default =
         (inl e, failed o [EvRouteDelete "default"] (set_cellular None ppp0_default))
   end).
Proof.
  apply (cellular_disconnected "ppp0" "ppp0" ppp0_default). reflexivity.
Defined.

Example cellular_down_scenario :
  cellular_connected "ppp0" false ppp0_default =
    (inr tt,
     World (Host lab_links None []) None [] empty empty empty
           [EvRouteDelete "default"; EvSaveDb; EvBackupDb]).
Proof. vm_compute. reflexivity. Qed.

(** An interface event: [eth0] now has gateway 10.0.0.2. *)
Definition eth0_event : dict := <["gateway" := "10.0.0.2"]> {[ "name" := "eth0" ]}.

(** C9, on the host: [eth0] is in the registry and the event brings a
    gateway. *)
Lemma update_router_information_upsert_witness :
  exists entry l',
    update_router_information eth0_event (settled []) =
      (inr entry, set_interfaces l' (settled [])) /\
    registry_wf l' /\
    entry ∈ l' /\ entry !! "interface" = Some "eth0" /\
    (forall i old,
       interfaces (settled []) !! i = Some old -> old !! "interface" = Some "eth0" ->
       l' = <[i := entry]> (interfaces (settled [])) /\
       match eth0_event !! "gateway" with
       | None => entry = old /\ l' = interfaces (settled [])
       | Some g => entry = <["gateway" := g]> old
       end) /\
    ((forall old, old ∈ interfaces (settled []) -> old !! "interface" <> Some "eth0") ->
     l' = (interfaces (settled []) ++ [entry])%list /\
     entry = match eth0_event !! "gateway" with
             | None => {[ "interface" := "eth0" ]}
             | Some g => <["gateway" := g]> {[ "interface" := "eth0" ]}
             end).
Proof.
  apply (update_router_information_upsert eth0_event "eth0" (settled []));
    [apply settled_wf|reflexivity].
Defined.

Example upsert_scenarios :
  (* an entry exists, a gateway is supplied *)
  update_router_information eth0_event (settled []) =
    (inr (<["gateway" := "10.0.0.2"]> {[ "interface" := "eth0" ]}),
     set_interfaces [<["gateway" := "10.0.0.2"]> {[ "interface" := "eth0" ]}]
                    (settled [])) /\
  (* an entry exists, no gateway is supplied *)
  update_router_information {[ "name" := "eth0" ]} (settled []) =
    (inr eth0_entry, settled []) /\
  (* no entry exists *)
  update_router_information {[ "name" := "eth1" ]} (settled []) =
    (inr {[ "interface" := "eth1" ]},
     set_interfaces [eth0_entry; {[ "interface" := "eth1" ]}] (settled [])).
Proof. split_and!; vm_compute; reflexivity. Qed.

(** C8 as stated fails on the logging.  [eth0] is the persisted default
    and the removal of the route fails: [update_default] raises, the handler
    returns normally, and the trace holds the calls of the attempt and no
    log line. *)
Lemma update_interface_router_not_logged :
  fst (update_default {[ "interface" := "eth0" ]}
         (set_interfaces [<["gateway" := "10.0.0.2"]> {[ "interface" := "eth0" ]}]
                         (settled [false]))) =
    inl (PrimitiveError "route delete failed") /\
  update_interface_router eth0_event (settled [false]) =
    (inr tt,
     World (lab []) None
           [<["gateway" := "10.0.0.2"]> {[ "interface" := "eth0" ]}]
           {[ "default" := "eth0" ]} {[ "default" := "eth0" ]} {[ "default" := "eth0" ]}
           [EvInterfaces; EvIfaddresses "eth0"; EvIfaddresses "eth1";
            EvIfaddresses "ppp0"; EvIfaddresses "eth2"; EvRouteDelete "default"]) /\
  forallb (fun ev => negb (is_log ev))
          (trace (snd (update_interface_router eth0_event (settled [false])))) = true.
Proof. split_and!; vm_compute; reflexivity. Qed.

(** C8 (amended), on the host: [eth0] is the persisted default and the event
    brings a new gateway. *)
Lemma update_interface_router_reapply_witness :
  exists entry w1,
    update_router_information eth0_event (settled []) = (inr entry, w1) /\
    w1 = set_interfaces (interfaces w1) (settled []) /\
    retrieve_gateway (interfaces w1) {[ "interface" := "eth0" ]} = inr entry /\
    entry !! "gateway" =
      match eth0_event !! "gateway", find_entry "eth0" (interfaces (settled [])) with
      | Some g, _ => Some g
      | None, Some (_, old) => old !! "gateway"
      | None, None => None
      end /\
    update_default entry w1 = update_default {[ "interface" := "eth0" ]} w1 /\
    ("eth0" <> "" -> "eth0" ∈ up_interfaces (os (settled [])) ->
     cellular_truthy (cellular (settled [])) = false ->
     update_default {[ "interface" := "eth0" ]} w1 =
     match apply_route "eth0" (entry !! "gateway") (os (settled [])) with
     | (inl e, o, evs) => (inl e, failed o (up_check (os (settled [])) ++ evs) w1)
     | (inr _, o, evs) =>
         (inr tt, persisted o (<["default" := "eth0"]> (db (settled [])))
                            (up_check (os (settled [])) ++ evs) w1)
     end) /\
    update_interface_router eth0_event (settled []) =
      match db (settled []) !! "default" with
      | None => (inl (KeyError "default"), w1)
      | Some current =>
          if decide ("eth0" = current)
          then (inr tt, snd (update_default {[ "interface" := "eth0" ]} w1))
          else (inr tt, w1)
      end /\
    (exists evs,
       trace (snd (update_interface_router eth0_event (settled []))) =
         (trace (settled []) ++ evs)%list /\
       Forall (fun ev => is_log ev = false) evs).
Proof.
  apply (update_interface_router_reapply eth0_event "eth0" (settled []));
    [apply settled_wf|reflexivity].
Defined.

Example reapply_scenario :
  (* the persisted default is updated: its route is applied anew *)
  update_interface_router eth0_event (settled []) =
    (inr tt,
     World (Host lab_links (Some ("10.0.0.2", "eth0")) []) None
           [<["gateway" := "10.0.0.2"]> {[ "interface" := "eth0" ]}]
           {[ "default" := "eth0" ]} {[ "default" := "eth0" ]} {[ "default" := "eth0" ]}
           [EvInterfaces; EvIfaddresses "eth0"; EvIfaddresses "eth1";
            EvIfaddresses "ppp0"; EvIfaddresses "eth2";
            EvRouteDelete "default"; EvRouteAdd "default" "eth0" (Some "10.0.0.2");
            EvSaveDb; EvBackupDb]) /\
  (* the route cannot be applied: the failure is dropped *)
  fst (update_interface_router eth0_event (settled [false])) = inr tt /\
  (* another interface is updated: no call is made *)
  update_interface_router {[ "name" := "eth1" ]} (settled []) =
    (inr tt, set_interfaces [eth0_entry; {[ "interface" := "eth1" ]}] (settled [])).
Proof. split_and!; vm_compute; reflexivity. Qed.

(** C10, on the host: [eth0] is registered with gateway 10.0.0.1, nothing is
    persisted, and the event brings gateway 10.0.0.2: the error leaves the
    registry with the new gateway. *)
Definition registered : world host :=
  World (lab []) None [eth0_entry] empty empty empty [].

Lemma registered_wf : registry_wf (interfaces registered).
Proof. compute_done. Qed.

Lemma missing_default_raises_witness :
  (exists entry l',
     entry ∈ l' /\ entry !! "interface" = Some "eth0" /\
     (forall g, eth0_event !! "gateway" = Some g -> entry !! "gateway" = Some g) /\
     (forall i old,
        interfaces registered !! i = Some old -> old !! "interface" = Some "eth0" ->
        l' = <[i := entry]> (interfaces registered) /\
        entry = match eth0_event !! "gateway" with
                | Some g => <["gateway" := g]> old
                | None => old
                end) /\
     ((forall old, old ∈ interfaces registered -> old !! "interface" <> Some "eth0") ->
      l' = (interfaces registered ++ [entry])%list /\
      entry = match eth0_event !! "gateway" with
              | Some g => <["gateway" := g]> {[ "interface" := "eth0" ]}
              | None => {[ "interface" := "eth0" ]}
              end) /\
     update_router_information eth0_event registered =
       (inr entry, set_interfaces l' registered) /\
     update_interface_router eth0_event registered =
       (inl (KeyError "default"), set_interfaces l' registered) /\
     _event_router_db eth0_event registered =
       (inl (KeyError "default"), set_interfaces l' registered) /\
     set_router_db (RouterDict eth0_event) registered =
       (inl (KeyError "default"), set_interfaces l' registered) /\
     set_router_db (RouterList [eth0_event]) registered =
       (inl (KeyError "default"), set_interfaces l' registered)) /\
  cellular_connected "eth0" false registered =
    (inl (KeyError "default"), set_cellular None registered) /\
  cellular (snd (cellular_connected "eth0" false registered)) = None.
Proof.
  apply (missing_default_raises eth0_event "eth0" registered);
    [reflexivity|apply registered_wf|reflexivity].
Defined.

(** The registry before and after the two errors: an entry rewritten, an
    entry appended. *)
Example missing_default_registry :
  interfaces registered = [<["gateway" := "10.0.0.1"]> {[ "interface" := "eth0" ]}] /\
  update_interface_router eth0_event registered =
    (inl (KeyError "default"),
     World (lab []) None [<["gateway" := "10.0.0.2"]> {[ "interface" := "eth0" ]}]
           empty empty empty []) /\
  update_interface_router {[ "name" := "eth1" ]} registered =
    (inl (KeyError "default"),
     World (lab []) None
           [<["gateway" := "10.0.0.1"]> {[ "interface" := "eth0" ]};
            {[ "interface" := "eth1" ]}]
           empty empty empty []).
Proof. split_and!; vm_compute; reflexivity. Qed.

Example missing_default_scenario :
  update_interface_router eth0_event (fresh []) =
    (inl (KeyError "default"),
     set_interfaces [<["gateway" := "10.0.0.2"]> {[ "interface" := "eth0" ]}]
                    (fresh [])) /\
  cellular_connected "ppp0" false (with_cellular "ppp0") =
    (inl (KeyError "default"), set_cellular None (with_cellular "ppp0")).
Proof. split_and!; vm_compute; reflexivity. Qed.

(** ** Further properties of the class *)

Section Further.
Context {OS : Type} `{NetPrim OS}.

Implicit Types (w : world OS) (default interface iface entry request : dict)
  (name : string).

(** *** The queries *)

(** X1: [list_interfaces] never raises and touches nothing: it answers the
    listed interfaces whose query returns link 1, and the empty list when
    the listing itself raises. *)
Theorem list_interfaces_up w :
  exists ifaces,
    list_interfaces w = (inr ifaces, emits (up_check (os w)) w) /\
    os (emits (up_check (os w)) w) = os w /\
    (forall name,
       name ∈ ifaces <->
       exists listed,
         ip_addr_interfaces (os w) = inr listed /\ name ∈ listed /\
         ip_addr_ifaddresses (os w) name = inr 1%Z) /\
    (forall e, ip_addr_interfaces (os w) = inl e -> ifaces = []).
Proof.
  exists (up_interfaces (os w)). split; [apply list_interfaces_spec|].
  split; [done|]. unfold up_interfaces.
  destruct (ip_addr_interfaces (os w)) as [e|listed]; split.
  - intros name. split; [by intros ?%elem_of_nil|]. by intros (? & ? & _).
  - done.
  - intros name. rewrite list_elem_of_In, filter_In, <- list_elem_of_In.
    unfold link_up. split.
    + intros [Hin Hup]. exists listed. split_and!; [done..|].
      destruct (ip_addr_ifaddresses (os w) name) as [e|link]; [done|].
      by apply bool_decide_eq_true in Hup as <-.
    + intros (? & [= <-] & Hin & ->). split; [done|]. by apply bool_decide_eq_true.
  - done.
Qed.

(** X2: [list_default] reads the IPv4 default gateway: the empty dictionary
    when the host has no default gateway at all, the gateway and the
    interface of the IPv4 one, and a [KeyError] when there are default
    gateways but none for IPv4.  Only the query is made. *)
Theorem list_default_outcomes w :
  (netifaces_gateways (os w) = empty ->
   list_default w = (inr empty, emit EvGateways w)) /\
  (forall gw ifc,
     netifaces_gateways (os w) !! AF_INET = Some (gw, ifc) ->
     exists default,
       list_default w = (inr default, emit EvGateways w) /\
       default !! "gateway" = Some gw /\ default !! "interface" = Some ifc /\
       (forall key, key <> "gateway" -> key <> "interface" -> default !! key = None)) /\
  (netifaces_gateways (os w) <> empty ->
   netifaces_gateways (os w) !! AF_INET = None ->
   list_default w = (inl (KeyError "2"), emit EvGateways w)).
Proof.
  rewrite list_default_spec. split_and!.
  - intros Hnone. by rewrite observed_none.
  - intros gw ifc Hsome. destruct (observed_some _ _ _ Hsome) as [-> _].
    eexists. split; [done|]. split_and!.
    + by rewrite lookup_insert_ne, lookup_insert_eq.
    + by rewrite lookup_insert_eq.
    + intros key Hg Hi. by rewrite !lookup_insert_ne, lookup_empty.
  - intros Hne Hnone. unfold observed_default.
    rewrite decide_True by done. by rewrite Hnone.
Qed.

(** X3: When the host has default gateways but none for IPv4, the [KeyError] of
    [list_default] escapes both handlers of the default route: no response
    is built, [update_default] is not reached and only the query was
    made. *)
Theorem default_handlers_raise request w :
  netifaces_gateways (os w) <> empty ->
  netifaces_gateways (os w) !! AF_INET = None ->
  _put_default (Some request) w = (inl (KeyError "2"), emit EvGateways w) /\
  _get_default w = (inl (KeyError "2"), emit EvGateways w).
Proof.
  intros Hne Hnone.
  assert (list_default w = (inl (KeyError "2"), emit EvGateways w)) as Hl.
  { rewrite list_default_spec. unfold observed_default.
    rewrite decide_True by done. by rewrite Hnone. }
  unfold _put_default, _get_default. cbn [put_default_schema].
  unfold bind. by rewrite Hl.
Qed.

(** X4: Once [list_default] has returned, [_put_default] always answers:
    whatever [update_default] and the recovery raise is turned into a
    response, with code 200, 400 or 404. *)
Theorem put_default_answers (message_data : option dict) observed w :
  observed_default (netifaces_gateways (os w)) = inr observed ->
  exists answer w',
    _put_default message_data w = (inr answer, w') /\
    (code answer = 200 \/ code answer = 400 \/ code answer = 404)%Z /\
    (code answer = 400%Z ->
     w' = w /\ exists e, put_default_schema message_data = inl e).
Proof.
  intros Hobs. destruct message_data as [request|].
  - destruct (update_default request (emit EvGateways w)) as [[e|[]] w1] eqn:Hupd.
    + rewrite (put_default_failure _ _ _ _ _ Hobs Hupd).
      eexists _, _. split; [done|]. cbn [code]. split; [auto|done].
    + rewrite (put_default_success _ _ _ _ Hobs Hupd).
      eexists _, _. split; [done|]. cbn [code]. split; [auto|done].
  - eexists _, _. split; [done|]. cbn [code]. split; [auto|]. eauto.
Qed.

(** *** The switcher *)

Lemma update_default_frame default w :
  cellular (snd (update_default default w)) = cellular w /\
  interfaces (snd (update_default default w)) = interfaces w.
Proof.
  rewrite update_default_switch. unfold switch.
  repeat (case_match; try done).
Qed.

(** What a successful [update_default] leaves as configuration. *)
Lemma update_default_return default w w' :
  update_default default w = (inr tt, w') ->
  db w' = (if has_interface default
           then match default !! "interface" with
                | Some name => <["default" := name]> (db w)
                | None => db w
                end
           else delete "default" (db w)) /\
  db_file w' = db w' /\ db_backup w' = db w'.
Proof.
  rewrite update_default_switch. unfold switch, has_interface.
  repeat (case_match; try done); intros [= <-]; done.
Qed.

(** X5: [update_default] is all or nothing on the configuration.  When it
    returns, the file and the backup hold the configuration in memory, which
    differs from the former one at the key ["default"] only; when it raises,
    the configuration, the file and the backup are as before.  Either way
    the registry and the cellular state are untouched. *)
Theorem update_default_transaction default w :
  match update_default default w with
  | (inr _, w') =>
      db_file w' = db w' /\ db_backup w' = db w' /\
      (forall key, key <> "default" -> db w' !! key = db w !! key)
  | (inl _, w') =>
      db w' = db w /\ db_file w' = db_file w /\ db_backup w' = db_backup w
  end /\
  cellular (snd (update_default default w)) = cellular w /\
  interfaces (snd (update_default default w)) = interfaces w.
Proof.
  split; [|apply update_default_frame].
  destruct (update_default default w) as [[e|[]] w'] eqn:Hupd.
  - by destruct (update_default_raise_frame _ _ _ _ Hupd) as (? & ? & ? & _).
  - destruct (update_default_return _ _ _ Hupd) as (Hdb & ? & ?).
    split_and!; [done..|]. intros key Hkey. rewrite Hdb.
    destruct (has_interface default).
    + destruct (default !! "interface"); [|done]. by rewrite lookup_insert_ne.
    + by rewrite lookup_delete_ne.
Qed.

(** The calls of a successful request for an interface. *)
Lemma update_default_return_trace default name w w' :
  default !! "interface" = Some name -> name <> "" ->
  update_default default w = (inr tt, w') ->
  exists entry,
    retrieve_gateway (interfaces w) default = inr entry /\
    trace w' = (trace w ++ up_check (os w)
                ++ [EvRouteDelete "default";
                    EvRouteAdd "default" name (entry !! "gateway");
                    EvSaveDb; EvBackupDb])%list.
Proof.
  intros Hd Hne%truthy_nonempty.
  rewrite update_default_switch. unfold switch. rewrite Hd, Hne.
  case_decide; [|done].
  destruct (cellular_truthy (cellular w)); [done|].
  destruct (retrieve_gateway (interfaces w) default) as [e|entry]; [done|].
  unfold apply_route.
  destruct (ip_route_delete "default" (os w)) as [[e|[]] o1]; [done|].
  destruct (ip_route_add "default" name (entry !! "gateway") o1) as [[e|[]] o2];
    [done|].
  intros [= <-]. exists entry. split; [done|].
  unfold up_check. simpl. by rewrite <- app_assoc.
Qed.

(** X6: Applying the same request twice: when both calls return, the second
    leaves the configuration, the file and the backup as the first did, and
    it issues the same removal and addition after its up-check. *)
Theorem update_default_twice default name w w1 w2 :
  default !! "interface" = Some name -> name <> "" ->
  update_default default w = (inr tt, w1) ->
  update_default default w1 = (inr tt, w2) ->
  db w2 = db w1 /\ db_file w2 = db_file w1 /\ db_backup w2 = db_backup w1 /\
  exists gw,
    trace w1 = (trace w ++ up_check (os w)
                ++ [EvRouteDelete "default"; EvRouteAdd "default" name gw;
                    EvSaveDb; EvBackupDb])%list /\
    trace w2 = (trace w1 ++ up_check (os w1)
                ++ [EvRouteDelete "default"; EvRouteAdd "default" name gw;
                    EvSaveDb; EvBackupDb])%list.
Proof.
  intros Hd Hne H1 H2.
  destruct (update_default_return_set _ _ _ _ Hd Hne H1) as (Hdb1 & Hf1 & Hb1 & _).
  destruct (update_default_return_set _ _ _ _ Hd Hne H2) as (Hdb2 & Hf2 & Hb2 & _).
  assert (db w2 = db w1) as Heq by (by rewrite Hdb2, Hdb1, insert_insert_eq).
  split_and!; [congruence..|].
  pose proof (update_default_frame default w) as [_ Hi]. rewrite H1 in Hi.
  cbn [snd] in Hi.
  destruct (update_default_return_trace _ _ _ _ Hd Hne H1) as (entry & Hr1 & Ht1).
  destruct (update_default_return_trace _ _ _ _ Hd Hne H2) as (entry' & Hr2 & Ht2).
  rewrite Hi, Hr1 in Hr2. injection Hr2 as <-.
  by exists (entry !! "gateway").
Qed.

(** X7: The cellular lock guards requests for an interface only: with a
    cellular interface active, a request without interface still removes the
    default route and the persisted default. *)
Theorem update_default_clear_unlocked default x (o : OS) w :
  cellular w = Some x -> x <> "" ->
  has_interface default = false ->
  ip_route_delete "default" (os w) = (inr tt, o) ->
  exists w',
    update_default default w = (inr tt, w') /\
    os w' = o /\ cellular w' = Some x /\
    db w' = delete "default" (db w) /\ db_file w' = db w' /\ db_backup w' = db w' /\
    trace w' = (trace w ++ [EvRouteDelete "default"; EvSaveDb; EvBackupDb])%list.
Proof.
  intros Hc _ Hno Hdel. rewrite update_default_clear by done. rewrite Hdel.
  eexists. split_and!; done.
Qed.

(** *** The cellular policy *)

Lemma cellular_connected_up_locked name w :
  name <> "" ->
  exists e,
    cellular_connected name true w =
      (inl e, failed (os w) (up_check (os w)) (set_cellular (Some name) w)) /\
    (e = InterfaceDown \/ e = CellularLocked).
Proof.
  intros Hne%truthy_nonempty.
  unfold cellular_connected, bind, modify, get. cbn [cellular set_cellular].
  rewrite update_default_switch. unfold switch.
  rewrite lookup_insert_eq, Hne. cbn [os cellular set_cellular].
  case_decide.
  - unfold cellular_truthy. rewrite Hne. eauto.
  - eauto.
Qed.

(** X8: Once [cellular_connected(name)] has run, every request for an
    interface is refused, the one for [name] included, and the host is still
    as it was before the cellular interface came up. *)
Theorem cellular_connected_locks name default y w :
  name <> "" ->
  default !! "interface" = Some y -> y <> "" ->
  exists e w',
    update_default default (snd (cellular_connected name true w)) = (inl e, w') /\
    (e = InterfaceDown \/ e = CellularLocked) /\
    os w' = os w /\ db w' = db w /\ cellular w' = Some name.
Proof.
  intros Hname Hd Hy.
  destruct (cellular_connected_up_locked name w Hname) as (e0 & -> & _).
  cbn [snd]. rewrite update_default_switch. unfold switch.
  apply truthy_nonempty in Hy, Hname. rewrite Hd, Hy.
  cbn [failed os cellular set_cellular cellular_truthy]. rewrite Hname.
  case_decide; eexists _, _; (split; [done|]); split_and!; auto.
Qed.

(** X9: [cellular_connected(name, up=False)] leaves no cellular interface
    active and the registry as it was, whether it returns or raises. *)
Theorem cellular_disconnected_inactive name w :
  cellular (snd (cellular_connected name false w)) = None /\
  interfaces (snd (cellular_connected name false w)) = interfaces w.
Proof.
  unfold cellular_connected, bind, modify, get, getitem.
  cbn [db set_cellular]. destruct (db w !! "default") as [current|]; [|done].
  unfold ret. case_decide; [|done].
  apply (update_default_frame empty (set_cellular None w)).
Qed.

(** *** The handlers of the default route *)

(** X10: [_get_default] only queries the host and always answers 200: with the
    route the host reports when that route goes through the persisted
    default interface, and with the persisted configuration as it is
    otherwise (no default persisted, no route reported, or a route through
    another interface). *)
Theorem get_default_answer observed w :
  observed_default (netifaces_gateways (os w)) = inr observed ->
  _get_default w =
    (inr (Response 200
            (DataDict
               match db w !! "default" with
               | Some current =>
                   if decide (observed !! "interface" = Some current)
                   then observed else db w
               | None => db w
               end)),
     emit EvGateways w).
Proof.
  intros Hobs. unfold _get_default. unfold bind at 1.
  rewrite list_default_spec, Hobs. unfold bind, get, ret, getitem.
  cbn [db emit].
  destruct (db w !! "default") as [current|] eqn:Hcur; cycle 1.
  { by case_decide. }
  rewrite decide_True by (intros Hempty; by rewrite Hempty in Hcur).
  destruct (decide (observed <> empty)) as [Hne|Hempty].
  - unfold observed_default in Hobs. case_decide; [|by simplify_eq].
    destruct (_ !! AF_INET) as [[gw ifc]|]; [|done]. injection Hobs as <-.
    rewrite lookup_insert_eq. cbn [snd]. unfold ret.
    destruct (decide (current = ifc)) as [->|Hdiff].
    + by rewrite !decide_True.
    + rewrite !decide_False; [done|congruence].
  - apply dec_stable in Hempty. subst observed.
    rewrite lookup_empty. by rewrite decide_False.
Qed.

(** X11: A request for an interface that is up, with no cellular interface
    active and primitives that succeed, is answered 200 with the new
    configuration, which names the interface under ["default"]; the route
    was added through the gateway the registry resolves to. *)
Theorem put_default_applies request name entry observed (o1 o2 : OS) w :
  observed_default (netifaces_gateways (os w)) = inr observed ->
  request !! "interface" = Some name -> name <> "" ->
  name ∈ up_interfaces (os w) ->
  cellular_truthy (cellular w) = false ->
  retrieve_gateway (interfaces w) request = inr entry ->
  ip_route_delete "default" (os w) = (inr tt, o1) ->
  ip_route_add "default" name (entry !! "gateway") o1 = (inr tt, o2) ->
  exists w',
    _put_default (Some request) w =
      (inr (Response 200 (DataDict (<["default" := name]> (db w)))), w') /\
    os w' = o2 /\ db w' = <["default" := name]> (db w) /\
    db_file w' = db w' /\ db_backup w' = db w' /\
    trace w' = (trace w ++ EvGateways :: up_check (os w)
                ++ [EvRouteDelete "default";
                    EvRouteAdd "default" name (entry !! "gateway");
                    EvSaveDb; EvBackupDb])%list.
Proof.
  intros Hobs Hd Hne Hup Hc Hr Hdel Hadd.
  pose proof (update_default_apply request name entry (emit EvGateways w)
                Hd Hne Hup Hc Hr) as Hupd.
  unfold apply_route in Hupd. rewrite os_emit, Hdel, Hadd in Hupd.
  rewrite (put_default_success _ _ _ _ Hobs Hupd).
  eexists. split; [done|]. split_and!; try done.
  cbn [persisted emit trace]. by rewrite <- !app_assoc.
Qed.

(** *** The registry *)

Lemma update_router_information_unnamed interface w :
  registry_wf (interfaces w) ->
  interface !! "name" = None ->
  update_router_information interface w = (inl (KeyError "name"), w).
Proof.
  intros [Hall _] Hn. unfold update_router_information, bind, get, lift.
  destruct (interfaces w) as [|iface rest] eqn:Hl.
  - cbn [update_router]. unfold new_router. by rewrite Hn.
  - cbn [update_router]. apply Forall_cons in Hall as [[a Ha] _].
    unfold entry_name in Ha. by rewrite Ha, Hn.
Qed.

Lemma update_interface_router_refuses interface w :
  registry_wf (interfaces w) ->
  interface !! "name" = None ->
  update_interface_router interface w = (inl (KeyError "name"), w).
Proof.
  intros Hwf Hn. unfold update_interface_router. unfold bind at 1.
  by rewrite update_router_information_unnamed.
Qed.

(** X12: An interface without a name is refused with [KeyError] before
    anything is changed or called, and the handlers let the error
    through. *)
Theorem update_interface_router_unnamed interface w :
  registry_wf (interfaces w) ->
  interface !! "name" = None ->
  update_interface_router interface w = (inl (KeyError "name"), w) /\
  _event_router_db interface w = (inl (KeyError "name"), w) /\
  set_router_db (RouterDict interface) w = (inl (KeyError "name"), w).
Proof.
  intros Hwf Hn.
  pose proof (update_interface_router_refuses interface w Hwf Hn) as Hr.
  split_and!; [done..|]. unfold set_router_db, bind. by rewrite Hr.
Qed.

Lemma update_interface_router_wf interface w :
  registry_wf (interfaces w) ->
  registry_wf (interfaces (snd (update_interface_router interface w))).
Proof.
  intros Hwf. destruct (interface !! "name") as [name|] eqn:Hn.
  - destruct (upsert_returns interface name w Hwf Hn) as (entry & l' & Hup).
    destruct (upsert_resolves _ _ _ _ _ Hwf Hn Hup) as (Hwf1 & Hname & _).
    rewrite (update_interface_router_spec _ name entry w _ Hup Hname) by done.
    destruct (db w !! "default") as [current|]; [|done].
    case_decide; [|done]. cbn [snd].
    by destruct (update_default_frame entry (set_interfaces l' w)) as [_ ->].
  - unfold update_interface_router. unfold bind at 1.
    by rewrite update_router_information_unnamed.
Qed.

Lemma update_each_wf (l : list dict) w :
  registry_wf (interfaces w) ->
  registry_wf (interfaces (snd (update_each l w))).
Proof.
  revert w. induction l as [|interface rest IH]; intros w Hwf; [done|].
  cbn [update_each]. unfold bind.
  pose proof (update_interface_router_wf interface w Hwf) as Hwf1.
  destruct (update_interface_router interface w) as [[e|[]] w1]; [done|].
  by apply IH.
Qed.

(** X13: The registry stays well formed, every entry carrying its interface
    name and no name occurring twice, through any update of the router
    database: one interface or a batch, applied, refused or re-applied. *)
Theorem set_router_db_wf (message_data : router_data) interface w :
  registry_wf (interfaces w) ->
  registry_wf (interfaces (snd (set_router_db message_data w))) /\
  registry_wf (interfaces (snd (_set_router_db message_data w))) /\
  registry_wf (interfaces (snd (_event_router_db interface w))).
Proof.
  intros Hwf.
  assert (registry_wf (interfaces (snd (set_router_db message_data w)))) as Hset;
    [|split_and!; [done..|by apply update_interface_router_wf]].
  destruct message_data as [l|d|]; [| |done].
  - unfold set_router_db, bind, get, ret.
    pose proof (update_each_wf l w Hwf) as Hwf1.
    by destruct (update_each l w) as [[e|[]] w1].
  - unfold set_router_db, bind, ret.
    pose proof (update_interface_router_wf d w Hwf) as Hwf1.
    by destruct (update_interface_router d w) as [[e|[]] w1].
Qed.

Lemma set_gateway_twice iface interface :
  set_gateway (set_gateway iface interface) interface = set_gateway iface interface.
Proof.
  unfold set_gateway. destruct (interface !! "gateway"); [|done].
  by rewrite insert_insert_eq.
Qed.

(** X14: Updating the registry twice with the same interface is the same as
    updating it once. *)
Theorem update_router_information_idempotent interface name entry w w1 :
  registry_wf (interfaces w) ->
  interface !! "name" = Some name ->
  update_router_information interface w = (inr entry, w1) ->
  update_router_information interface w1 = (inr entry, w1).
Proof.
  intros Hwf Hn Hup.
  destruct (upsert_resolves _ _ _ _ _ Hwf Hn Hup) as (Hwf1 & _ & [i Hfind] & _).
  rewrite (upsert_spec _ name) by done. rewrite Hfind.
  revert Hup. rewrite (upsert_spec _ name) by done.
  assert (forall l, set_interfaces l (set_interfaces l w) = set_interfaces l w)
    as Hset by done.
  pose proof Hfind as (Hi & _)%list_find_Some.
  destruct (find_entry name (interfaces w)) as [[j old]|];
    intros [= <- <-]; rewrite set_gateway_twice;
    cbn [interfaces set_interfaces] in *; by rewrite list_insert_id.
Qed.

Lemma retrieve_gateway_insert_other (ifaces : list dict) (i : nat) old new default name name' :
  ifaces !! i = Some old ->
  entry_name old = Some name -> entry_name new = Some name ->
  default !! "interface" = Some name' -> name' <> name ->
  retrieve_gateway (<[i := new]> ifaces) default = retrieve_gateway ifaces default.
Proof.
  intros Hi Hold Hnew Hd Hne. revert i Hi.
  induction ifaces as [|iface rest IH]; intros i Hi; [done|].
  destruct i as [|i]; simpl in Hi.
  - injection Hi as ->. unfold entry_name in Hold, Hnew.
    change (<[0 := new]> (old :: rest)) with (new :: rest).
    cbn [retrieve_gateway]. rewrite Hold, Hnew, Hd.
    by rewrite !decide_False by congruence.
  - change (<[S i := new]> (iface :: rest)) with (iface :: <[i := new]> rest).
    cbn [retrieve_gateway]. by rewrite (IH i Hi).
Qed.

Lemma retrieve_gateway_append_other (ifaces : list dict) new default name name' :
  entry_name new = Some name ->
  default !! "interface" = Some name' -> name' <> name ->
  retrieve_gateway (ifaces ++ [new]) default = retrieve_gateway ifaces default.
Proof.
  intros Hnew Hd Hne. induction ifaces as [|iface rest IH]; simpl.
  - unfold entry_name in Hnew. rewrite Hnew, Hd. by rewrite decide_False by congruence.
  - by rewrite IH.
Qed.

(** X15: An update of the registry for one interface leaves the others alone:
    requests for another interface resolve as before, and the registry
    keeps its entries, growing by one at most. *)
Theorem update_router_information_others interface name entry w w1 :
  registry_wf (interfaces w) ->
  interface !! "name" = Some name ->
  update_router_information interface w = (inr entry, w1) ->
  (forall default name',
     default !! "interface" = Some name' -> name' <> name ->
     retrieve_gateway (interfaces w1) default =
     retrieve_gateway (interfaces w) default) /\
  (length (interfaces w) <= length (interfaces w1) <= S (length (interfaces w))) /\
  (forall name', name' <> name ->
     (exists old, old ∈ interfaces w /\ entry_name old = Some name') <->
     (exists old, old ∈ interfaces w1 /\ entry_name old = Some name')).
Proof.
  intros Hwf Hn. rewrite (upsert_spec _ name) by done.
  destruct (find_entry name (interfaces w)) as [[i old]|] eqn:Hfind;
    intros [= <- <-]; cbn [interfaces set_interfaces].
  - pose proof Hfind as (Hi & Hold & _)%list_find_Some.
    assert (entry_name (set_gateway old interface) = Some name) as Hnew
      by by rewrite set_gateway_name.
    split_and!.
    + intros default name' Hd Hne. by eapply retrieve_gateway_insert_other.
    + rewrite length_insert. lia.
    + rewrite length_insert. lia.
    + intros name' Hne. split; intros (e & [j Hj]%list_elem_of_lookup & He).
      * destruct (decide (j = i)) as [->|Hji]; [congruence|].
        exists e. split; [|done]. eapply list_elem_of_lookup_2.
        by rewrite list_lookup_insert_ne.
      * destruct (decide (j = i)) as [->|Hji].
        { rewrite list_lookup_insert_eq in Hj by by eapply lookup_lt_Some.
          congruence. }
        rewrite list_lookup_insert_ne in Hj by done.
        exists e. split; [|done]. by eapply list_elem_of_lookup_2.
  - assert (entry_name (set_gateway {["interface" := name]} interface) = Some name)
      as Hnew by (rewrite set_gateway_name; apply lookup_singleton_eq).
    split_and!.
    + intros default name' Hd Hne. by eapply retrieve_gateway_append_other.
    + rewrite length_app. lia.
    + rewrite length_app. simpl. lia.
    + intros name' Hne. split.
      * intros (e & He & Hname). exists e. split; [|done].
        apply elem_of_app. by left.
      * intros (e & [He|He%list_elem_of_singleton]%elem_of_app & Hname).
        { by exists e. }
        congruence.
Qed.

(** X16: A batch is not atomic: when an interface of the list has no name, the
    [KeyError] is raised with the interfaces before it already applied. *)
Theorem set_router_db_partial (before after : list dict) (bad : dict) w w1 :
  registry_wf (interfaces w) ->
  update_each before w = (inr tt, w1) ->
  bad !! "name" = None ->
  set_router_db (RouterList (before ++ bad :: after)) w =
    (inl (KeyError "name"), w1).
Proof.
  intros Hwf Hbefore Hbad.
  assert (update_each (before ++ bad :: after) w = (inl (KeyError "name"), w1))
    as Hall.
  { revert w Hwf Hbefore. induction before as [|interface rest IH];
      intros w Hwf Hbefore.
    - injection Hbefore as <-. cbn [app update_each]. unfold bind.
      by rewrite (update_interface_router_refuses bad w Hwf Hbad).
    - revert Hbefore. cbn [app update_each]. unfold bind.
      pose proof (update_interface_router_wf interface w Hwf) as Hwf1.
      destruct (update_interface_router interface w) as [[e|[]] w']; [done|].
      intros Hrest. by apply IH. }
  unfold set_router_db, bind. by rewrite Hall.
Qed.

(** *** The construction of the object *)

(** X17: With no configuration to load the bundle stops.  With one, the object
    always comes up, whatever the first [update_default] raises: no cellular
    interface active, an empty (hence well-formed) registry, and a file and a
    backup that hold the configuration in memory. *)
Theorem init_running (model_db : option dict) w :
  match model_db with
  | None => init model_db w = Stopped "Cannot load any configuration."
  | Some d =>
      exists w',
        init model_db w = Running w' /\
        cellular w' = None /\ interfaces w' = [] /\
        registry_wf (interfaces w') /\
        db_file w' = db w' /\ db_backup w' = db w'
  end.
Proof.
  destruct model_db as [d|]; [|done].
  unfold init, load. rewrite save_spec. cbn [snd db set_db set_cellular set_interfaces].
  eexists. split; [done|]. unfold try_except.
  match goal with |- context [update_default ?d ?w0] =>
    pose proof (update_default_frame d w0) as [Hc Hi];
    destruct (update_default d w0) as [[e|[]] w1] eqn:Hupd end;
    cbn [snd] in *; unfold ret; cbn [snd];
    rewrite Hc, Hi; (split_and!; [done|done|apply registry_wf_nil|..]).
  - by destruct (update_default_raise_frame _ _ _ _ Hupd) as (-> & -> & _).
  - by destruct (update_default_raise_frame _ _ _ _ Hupd) as (-> & _ & -> & _).
  - by destruct (update_default_return _ _ _ Hupd) as (_ & -> & _).
  - by destruct (update_default_return _ _ _ Hupd) as (_ & _ & ->).
Qed.

(** X18: The first [update_default] is given the configuration itself.  A
    configuration that records its default under ["default"], with no
    ["interface"] key of its own, is thus taken for a request to clear: the
    default route of the host is removed and, when the removal succeeds, the
    persisted default is dropped and the file rewritten; when it fails the
    configuration stays as loaded. *)
Theorem init_clears_default (d : dict) w :
  has_interface d = false ->
  match ip_route_delete "default" (os w) with
  | (inr _, o) =>
      init (Some d) w =
        Running (World o None [] (delete "default" d) (delete "default" d)
                       (delete "default" d)
                       (trace w ++ [EvSaveDb; EvBackupDb; EvRouteDelete "default";
                                    EvSaveDb; EvBackupDb]))
  | (inl _, o) =>
      init (Some d) w =
        Running (World o None [] d d d
                       (trace w ++ [EvSaveDb; EvBackupDb; EvRouteDelete "default"]))
  end.
Proof.
  intros Hno. unfold init, load. rewrite save_spec. cbv zeta. unfold try_except.
  match goal with |- context [update_default ?d0 ?w0] =>
    rewrite (update_default_clear d0 w0) by exact Hno;
    change (os w0) with (os w)
  end.
  destruct (ip_route_delete "default" (os w)) as [[e|[]] o];
    unfold ret, failed, persisted, set_interfaces, set_cellular, set_db;
    cbn [snd os cellular interfaces db db_file db_backup trace];
    by rewrite <- !app_assoc.
Qed.

End Further.

(** ** Further runs *)

(** A host whose only default gateway is an IPv6 one. *)
Inductive v6_host : Type := V6Host.

#[global] Instance v6_host_prim : NetPrim v6_host := {
  ip_addr_interfaces _ := inr ["eth0"];
  ip_addr_ifaddresses _ _ := inr 1%Z;
  ip_route_delete _ h := (inr tt, h);
  ip_route_add _ _ _ h := (inr tt, h);
  netifaces_gateways _ := {[ 10%Z := ("fe80::1", "eth0") ]}
}.

Definition v6_world : world v6_host :=
  World V6Host None [] empty empty empty [].

(** X3, on a run. *)
Lemma default_handlers_raise_witness :
  _put_default (Some eth1_request) v6_world =
    (inl (KeyError "2"), emit EvGateways v6_world) /\
  _get_default v6_world = (inl (KeyError "2"), emit EvGateways v6_world).
Proof.
  apply (default_handlers_raise eth1_request v6_world); [compute_done|reflexivity].
Defined.

(** X4, on a run. *)
Lemma put_default_answers_witness :
  exists answer w',
    _put_default (Some eth1_request) add_fails = (inr answer, w') /\
    (code answer = 200 \/ code answer = 400 \/ code answer = 404)%Z /\
    (code answer = 400%Z ->
     w' = add_fails /\ exists e, put_default_schema (Some eth1_request) = inl e).
Proof.
  apply (put_default_answers (Some eth1_request) lab_observed add_fails).
  vm_compute. reflexivity.
Defined.

Definition eth0_request : dict := {[ "interface" := "eth0" ]}.

(** X6, on a run. *)
Lemma update_default_twice_witness :
  db (snd (update_default eth0_request (snd (update_default eth0_request (settled [])))))
    = db (snd (update_default eth0_request (settled []))) /\
  db_file (snd (update_default eth0_request (snd (update_default eth0_request (settled [])))))
    = db_file (snd (update_default eth0_request (settled []))) /\
  db_backup (snd (update_default eth0_request (snd (update_default eth0_request (settled [])))))
    = db_backup (snd (update_default eth0_request (settled []))) /\
  exists gw,
    trace (snd (update_default eth0_request (settled []))) =
      (trace (settled []) ++ up_check (os (settled []))
       ++ [EvRouteDelete "default"; EvRouteAdd "default" "eth0" gw;
           EvSaveDb; EvBackupDb])%list /\
    trace (snd (update_default eth0_request (snd (update_default eth0_request (settled []))))) =
      (trace (snd (update_default eth0_request (settled [])))
       ++ up_check (os (snd (update_default eth0_request (settled []))))
       ++ [EvRouteDelete "default"; EvRouteAdd "default" "eth0" gw;
           EvSaveDb; EvBackupDb])%list.
Proof.
  apply (update_default_twice eth0_request "eth0" (settled []));
    [reflexivity|compute_done|vm_compute; reflexivity|vm_compute; reflexivity].
Defined.

(** X7, on a run. *)
Lemma update_default_clear_unlocked_witness :
  exists w',
    update_default empty (with_cellular "ppp0") = (inr tt, w') /\
    os w' = Host lab_links None [] /\ cellular w' = Some "ppp0" /\
    db w' = delete "default" (db (with_cellular "ppp0")) /\
    db_file w' = db w' /\ db_backup w' = db w' /\
    trace w' = (trace (with_cellular "ppp0")
                ++ [EvRouteDelete "default"; EvSaveDb; EvBackupDb])%list.
Proof.
  apply (update_default_clear_unlocked empty "ppp0" (Host lab_links None [])
           (with_cellular "ppp0"));
    [reflexivity|compute_done|reflexivity|reflexivity].
Defined.

(** X8, on a run. *)
Lemma cellular_connected_locks_witness :
  exists e w',
    update_default {[ "interface" := "ppp0" ]}
                   (snd (cellular_connected "ppp0" true (fresh []))) = (inl e, w') /\
    (e = InterfaceDown \/ e = CellularLocked) /\
    os w' = os (fresh []) /\ db w' = db (fresh []) /\ cellular w' = Some "ppp0".
Proof.
  apply (cellular_connected_locks "ppp0" {[ "interface" := "ppp0" ]} "ppp0" (fresh []));
    [compute_done|reflexivity|compute_done].
Defined.

(** X10, on a run. *)
Lemma get_default_answer_witness :
  _get_default (settled []) =
    (inr (Response 200
            (DataDict
               match db (settled []) !! "default" with
               | Some current =>
                   if decide (lab_observed !! "interface" = Some current)
                   then lab_observed else db (settled [])
               | None => db (settled [])
               end)),
     emit EvGateways (settled [])).
Proof.
  apply (get_default_answer lab_observed (settled [])). vm_compute. reflexivity.
Defined.

(** The two answers of [_get_default]: the route of the host when it goes
    through the persisted default, the configuration when nothing is
    persisted. *)
Example get_default_scenarios :
  fst (_get_default (settled [])) =
    inr (Response 200 (DataDict lab_observed)) /\
  fst (_get_default (fresh [])) = inr (Response 200 (DataDict empty)) /\
  fst (_get_default ppp1_active) =
    inr (Response 200 (DataDict lab_observed)) /\
  fst (_get_default ppp0_default) =
    inr (Response 200
           (DataDict (<["interface" := "ppp0"]> (<["gateway" := "0.0.0.0"]> empty)))).
Proof. split_and!; vm_compute; reflexivity. Qed.

(** X11, on a run. *)
Lemma put_default_applies_witness :
  exists w',
    _put_default (Some eth1_request) (settled []) =
      (inr (Response 200 (DataDict (<["default" := "eth1"]> (db (settled []))))), w') /\
    os w' = Host lab_links (Some ("0.0.0.0", "eth1")) [] /\
    db w' = <["default" := "eth1"]> (db (settled [])) /\
    db_file w' = db w' /\ db_backup w' = db w' /\
    trace w' = (trace (settled []) ++ EvGateways :: up_check (os (settled []))
                ++ [EvRouteDelete "default";
                    EvRouteAdd "default" "eth1" (eth1_request !! "gateway");
                    EvSaveDb; EvBackupDb])%list.
Proof.
  apply (put_default_applies eth1_request "eth1" eth1_request lab_observed
           (Host lab_links None []) (Host lab_links (Some ("0.0.0.0", "eth1")) [])
           (settled []));
    [vm_compute; reflexivity|reflexivity|compute_done|compute_done|reflexivity
    |vm_compute; reflexivity|reflexivity|reflexivity].
Defined.

(** An interface event without a name. *)
Definition unnamed_event : dict := {[ "gateway" := "10.0.0.9" ]}.

(** X12, on a run. *)
Lemma update_interface_router_unnamed_witness :
  update_interface_router unnamed_event (settled []) =
    (inl (KeyError "name"), settled []) /\
  _event_router_db unnamed_event (settled []) =
    (inl (KeyError "name"), settled []) /\
  set_router_db (RouterDict unnamed_event) (settled []) =
    (inl (KeyError "name"), settled []).
Proof.
  apply (update_interface_router_unnamed unnamed_event (settled []));
    [apply settled_wf|reflexivity].
Defined.

(** X13, on a run. *)
Lemma set_router_db_wf_witness :
  registry_wf (interfaces (snd (set_router_db
                                  (RouterList [eth0_event; {[ "name" := "eth1" ]}])
                                  (settled [])))) /\
  registry_wf (interfaces (snd (_set_router_db
                                  (RouterList [eth0_event; {[ "name" := "eth1" ]}])
                                  (settled [])))) /\
  registry_wf (interfaces (snd (_event_router_db eth0_event (settled [])))).
Proof.
  apply (set_router_db_wf (RouterList [eth0_event; {[ "name" := "eth1" ]}])
           eth0_event (settled [])).
  apply settled_wf.
Defined.

(** X14, on a run. *)
Lemma update_router_information_idempotent_witness :
  update_router_information eth0_event
    (snd (update_router_information eth0_event (settled []))) =
  (inr (<["gateway" := "10.0.0.2"]> {[ "interface" := "eth0" ]}),
   snd (update_router_information eth0_event (settled []))).
Proof.
  apply (update_router_information_idempotent eth0_event "eth0" _ (settled []));
    [apply settled_wf|reflexivity|vm_compute; reflexivity].
Defined.

(** X15, on a run. *)
Lemma update_router_information_others_witness :
  (forall default name',
     default !! "interface" = Some name' -> name' <> "eth1" ->
     retrieve_gateway
       (interfaces (snd (update_router_information {[ "name" := "eth1" ]} (settled []))))
       default =
     retrieve_gateway (interfaces (settled [])) default) /\
  (length (interfaces (settled []))
   <= length (interfaces (snd (update_router_information {[ "name" := "eth1" ]}
                                 (settled []))))
   <= S (length (interfaces (settled [])))) /\
  (forall name', name' <> "eth1" ->
     (exists old, old ∈ interfaces (settled []) /\ entry_name old = Some name') <->
     (exists old,
        old ∈ interfaces (snd (update_router_information {[ "name" := "eth1" ]}
                                 (settled []))) /\
        entry_name old = Some name')).
Proof.
  apply (update_router_information_others {[ "name" := "eth1" ]} "eth1"
           {[ "interface" := "eth1" ]} (settled []));
    [apply settled_wf|reflexivity|vm_compute; reflexivity].
Defined.

(** X16, on a run. *)
Lemma set_router_db_partial_witness :
  set_router_db (RouterList ([eth0_event] ++ unnamed_event :: [{[ "name" := "eth1" ]}]))
                (settled []) =
    (inl (KeyError "name"), snd (update_each [eth0_event] (settled []))).
Proof.
  apply (set_router_db_partial [eth0_event] [{[ "name" := "eth1" ]}] unnamed_event
           (settled []));
    [apply settled_wf|vm_compute; reflexivity|reflexivity].
Defined.

(** A configuration as the bundle writes it, loaded at start. *)
Definition stored : dict := {[ "default" := "eth0" ]}.

(** X18, on a run. *)
Lemma init_clears_default_witness :
  match ip_route_delete "default" (os (fresh [])) with
  | (inr _, o) =>
      init (Some stored) (fresh []) =
        Running (World o None [] (delete "default" stored) (delete "default" stored)
                       (delete "default" stored)
                       (trace (fresh [])
                        ++ [EvSaveDb; EvBackupDb; EvRouteDelete "default";
                            EvSaveDb; EvBackupDb]))
  | (inl _, o) =>
      init (Some stored) (fresh []) =
        Running (World o None [] stored stored stored
                       (trace (fresh [])
                        ++ [EvSaveDb; EvBackupDb; EvRouteDelete "default"]))
  end.
Proof.
  apply (init_clears_default stored (fresh [])). reflexivity.
Defined.

Example init_scenario :
  init (Some stored) (fresh []) =
    Running (World (Host lab_links None []) None [] empty empty empty
                   [EvSaveDb; EvBackupDb; EvRouteDelete "default";
                    EvSaveDb; EvBackupDb]) /\
  init (Some stored) (fresh [false]) =
    Running (World (lab []) None [] stored stored stored
                   [EvSaveDb; EvBackupDb; EvRouteDelete "default"]) /\
  init None (fresh []) = Stopped "Cannot load any configuration.".
Proof. split_and!; vm_compute; reflexivity. Qed.
